(** * Regulator agent of the service mesh demo: a shallow embedding

    Source: [mesh_on_cloud_run/src/regulator_agent/main.py].

    The regulator receives a zone, asks the biologist agent and the vessel
    agent for their data over HTTP, fuses the two payloads with a cross join
    filtered at one nautical mile, asks the LLM proxy for a narrative summary
    and assembles the report.

    Conventions of the embedding.
    - A Python [float] that is finite is a dyadic rational, so coordinates and
      distances are values of [Q]; comparison with 1852 and rounding to a whole
      number are exact on them.
    - JSON objects are records whose fields are the keys the regulator reads;
      a key that may be absent is an [option].
    - Exceptions are values of [exn]; a computation is a function from the
      log of external calls made so far to an outcome and the extended log.
    - What lives outside the repository (the HTTP transport, geopy's
      [great_circle], the text of library exceptions) is a field of [Env]. *)

From Stdlib Require Import List String ZArith QArith Qround Qabs Bool Lia.
From Stdlib Require Import Sorting.Sorted.
Import ListNotations.

Local Open Scope string_scope.
Local Open Scope Z_scope.

(** ** Data model *)

(** A record of the biologist agent: [{"id", "type", "lat", "lon"}]. *)
Module Sighting.
Record t : Type := Build { id : string; type : string; lat : Q; lon : Q }.
End Sighting.

(** A record of the vessel agent: [{"id", "class", "lat", "lon"}]. *)
Module Vessel.
Record t : Type := Build { id : string; class : string; lat : Q; lon : Q }.
End Vessel.

(** One entry of the list returned by [analyze_proximity_risk]. *)
Record RiskEvent : Type := {
  vessel_id : string;
  vessel_class : string;
  whale_sighting_id : string;
  distance_meters : Q
}.

(** A JSON object received from a collaborator, with the keys read by the
    regulator.  [None] is an absent key. *)
Record JsonDoc : Type := {
  source : option string;
  sightings : option (list Sighting.t);
  vessels : option (list Vessel.t);
  summary : option string;
  risk_level : option string;
  recommended_action : option string
}.

Definition empty_doc : JsonDoc :=
  {| source := None; sightings := None; vessels := None;
     summary := None; risk_level := None; recommended_action := None |}.

(** [d.get(key, default)] on a key held in an optional field. *)
Definition dict_get {A : Type} (field : option A) (default : A) : A :=
  match field with
  | Some v => v
  | None => default
  end.

(** Truth value of a Python list: [not l] holds exactly for the empty list. *)
Definition truthy {A : Type} (l : list A) : bool :=
  match l with
  | [] => false
  | _ :: _ => true
  end.

(** ** Exceptions *)

Inductive exn : Type :=
| HTTPException (status_code : Z) (detail : string)
| HTTPStatusError (response_text : string)
| RequestError (reason : string)
| JSONDecodeError (reason : string)
| KeyError (key : string)
| LibraryError (reason : string)
| InvalidURL (reason : string).

(** ** External calls *)

(** The JSON body of an outgoing POST.  The prompt sent to the LLM proxy is a
    fixed text around the zone and the printed list of risk events, so it is
    represented by these two. *)
Inductive RequestBody : Type :=
| ZoneBody (zone : string)
| PromptBody (zone : string) (risk_events : list RiskEvent).

(** What [http_client.post] yields: an [httpx.RequestError] (timeout,
    connection failure), a response with its status code, its text and its
    body parsed as JSON ([None] when the text is not JSON), or another
    exception of the client, such as the [httpx.InvalidURL] of a URL that is
    set but cannot be parsed. *)
Record Response : Type := {
  status : Z;
  text : string;
  json : option JsonDoc
}.

Inductive HttpOutcome : Type :=
| Unreachable (reason : string)
| Responded (response : Response)
| Raised (e : exn).

(** A (latitude, longitude) tuple as passed to geopy. *)
Definition LatLon : Type := (Q * Q)%type.

Inductive Event : Type :=
| Post (url : string) (body : RequestBody)
| GreatCircle (a b : LatLon).

(** The log of external calls, most recent first. *)
Definition Trace : Type := list Event.

Record Env : Type := {
  BIOLOGIST_AGENT_URL : string;
  VESSEL_AGENT_URL : string;
  LLM_PROXY_URL : string;
  (** the network: the answer to a POST, given the calls made before it *)
  transport : Trace -> string -> RequestBody -> HttpOutcome;
  (** [geopy.distance.great_circle(a, b).meters], or the exception it raises *)
  great_circle : LatLon -> LatLon -> exn + Q;
  (** [str(e)] as rendered inside an f-string *)
  str : exn -> string
}.

(** ** Computations: a log of calls and an outcome *)

Definition M (A : Type) : Type := Trace -> (exn + A) * Trace.

Definition ret {A : Type} (a : A) : M A := fun tr => (inr a, tr).

Definition raise {A : Type} (e : exn) : M A := fun tr => (inl e, tr).

Definition bind {A B : Type} (m : M A) (k : A -> M B) : M B :=
  fun tr =>
    match m tr with
    | (inr a, tr') => k a tr'
    | (inl e, tr') => (inl e, tr')
    end.

(** [try: m  except Exception as e: handler e] *)
Definition try_except {A : Type} (m : M A) (handler : exn -> M A) : M A :=
  fun tr =>
    match m tr with
    | (inr a, tr') => (inr a, tr')
    | (inl e, tr') => handler e tr'
    end.

Declare Scope comp_scope.
Delimit Scope comp_scope with comp.
Notation "x <- m ;; k" := (bind m (fun x => k))
  (at level 61, m at next level, right associativity) : comp_scope.
Notation "m ;;; k" := (bind m (fun _ => k))
  (at level 61, right associativity) : comp_scope.

(** Python's [for]-less traversal used by [DataFrame.apply(f, axis=1)]: [f]
    runs on the rows in order and the first exception aborts the traversal. *)
Fixpoint apply_rows {A B : Type} (f : A -> M B) (rows : list A) : M (list B) :=
  match rows with
  | [] => ret []
  | r :: rest =>
      (y <- f r ;;
       ys <- apply_rows f rest ;;
       ret (y :: ys))%comp
  end.

(** ** Numbers *)

(** [numpy.around(x, 0)]: the nearest whole number, ties to the even one. *)
Definition round_half_even (q : Q) : Z :=
  let f := Qfloor q in
  match Qcompare (q - inject_Z f) (1 # 2) with
  | Lt => f
  | Gt => f + 1
  | Eq => if Z.even f then f else f + 1
  end.

(** The float produced by rounding to 0 decimals. *)
Definition round0 (q : Q) : Q := inject_Z (round_half_even q).

Definition THRESHOLD_METERS : Q := 1852 # 1.

(** ** Frames *)

(** A shapely point. *)
Record Point : Type := { x : Q; y : Q }.

(** [gpd.points_from_xy(df.lon, df.lat)] on one row. *)
Definition points_from_xy (lon lat : Q) : Point := {| x := lon; y := lat |}.

(** A row of [whales_gdf]: the record and its geometry column. *)
Record WhaleRow : Type := { whale : Sighting.t; whale_geometry : Point }.

(** A row of [vessels_gdf]. *)
Record VesselRow : Type := { vessel : Vessel.t; vessel_geometry : Point }.

Definition whales_gdf_of (whale_sightings : list Sighting.t) : list WhaleRow :=
  map (fun s => {| whale := s;
                   whale_geometry := points_from_xy (Sighting.lon s) (Sighting.lat s) |})
      whale_sightings.

Definition vessels_gdf_of (vessel_tracks : list Vessel.t) : list VesselRow :=
  map (fun v => {| vessel := v;
                   vessel_geometry := points_from_xy (Vessel.lon v) (Vessel.lat v) |})
      vessel_tracks.

(** A row of [all_pairs].  The columns present on both sides ([id], [lat],
    [lon], [geometry]) carry the suffixes; [type] and [class] do not. *)
Record PairRow : Type := {
  id_whale : string;
  type : string;
  lat_whale : Q;
  lon_whale : Q;
  geometry_whale : Point;
  id_vessel : string;
  class : string;
  lat_vessel : Q;
  lon_vessel : Q;
  geometry_vessel : Point
}.

Definition pair_row (w : WhaleRow) (v : VesselRow) : PairRow :=
  {| id_whale := Sighting.id (whale w);
     type := Sighting.type (whale w);
     lat_whale := Sighting.lat (whale w);
     lon_whale := Sighting.lon (whale w);
     geometry_whale := whale_geometry w;
     id_vessel := Vessel.id (vessel v);
     class := Vessel.class (vessel v);
     lat_vessel := Vessel.lat (vessel v);
     lon_vessel := Vessel.lon (vessel v);
     geometry_vessel := vessel_geometry v |}.

(** [left.merge(right, how="cross")]: every left row with every right row,
    left rows in order and, for each of them, the right rows in order. *)
Definition merge_cross (left : list WhaleRow) (right : list VesselRow) : list PairRow :=
  flat_map (fun w => map (pair_row w) right) left.

(** A row of [all_pairs] once the [distance_meters] column is set. *)
Record ScoredRow : Type := { row : PairRow; row_distance : Q }.

(** Steps 6 and 7: rename, select the four columns, round, [to_dict]. *)
Definition to_record (r : ScoredRow) : RiskEvent :=
  {| vessel_id := id_vessel (row r);
     vessel_class := class (row r);
     whale_sighting_id := id_whale (row r);
     distance_meters := round0 (row_distance r) |}.

(** ** The regulator *)

(** The report returned by [check_risk]. *)
Record RiskData : Type := {
  risk_events_found : nat;
  risk_events : list RiskEvent
}.

Record RawData : Type := {
  whale_data : JsonDoc;
  vessel_data : JsonDoc
}.

Record RiskReport : Type := {
  zone : string;
  ai_summary : JsonDoc;
  data : RiskData;
  raw_data : RawData
}.

Definition is_exception {A : Type} (result : exn + A) : bool :=
  match result with
  | inl _ => true
  | inr _ => false
  end.

Section Regulator.

Variable env : Env.

Local Open Scope comp_scope.

(** [await http_client.post(url, json=body)] *)
Definition http_client_post (url : string) (body : RequestBody) : M Response :=
  fun tr =>
    match transport env tr url body with
    | Unreachable reason => (inl (RequestError reason), Post url body :: tr)
    | Responded response => (inr response, Post url body :: tr)
    | Raised e => (inl e, Post url body :: tr)
    end.

(** [response.raise_for_status()]: only 2xx passes. *)
Definition is_success (status : Z) : bool :=
  (200 <=? status) && (status <=? 299).

Definition raise_for_status (response : Response) : M unit :=
  if is_success (status response) then ret tt
  else raise (HTTPStatusError (text response)).

(** [response.json()] *)
Definition response_json (response : Response) : M JsonDoc :=
  match json response with
  | Some doc => ret doc
  | None => raise (JSONDecodeError "Expecting value")
  end.

Definition get_data_from_agent (service_url : string) (zone : string) : M JsonDoc :=
  if String.eqb service_url EmptyString then
    raise (HTTPException 500 "Service URL for a dependency is not configured.")
  else
    try_except
      (response <- http_client_post service_url (ZoneBody zone) ;;
       raise_for_status response ;;;
       response_json response)
      (fun e =>
         match e with
         | HTTPStatusError response_text =>
             raise (HTTPException 503
                      ("Downstream service unavailable " ++ response_text))
         | RequestError _ =>
             raise (HTTPException 504 "Could not connect to downstream service")
         | _ => raise e
         end).

(** The function applied to each row of [all_pairs]. *)
Definition calculate_distance (r : PairRow) : M Q :=
  let a := (y (geometry_whale r), x (geometry_whale r)) in
  let b := (y (geometry_vessel r), x (geometry_vessel r)) in
  fun tr =>
    match great_circle env a b with
    | inr meters => (inr meters, GreatCircle a b :: tr)
    | inl e => (inl e, GreatCircle a b :: tr)
    end.

Definition analyze_proximity_risk (whale_data vessel_data : JsonDoc)
  : M (list RiskEvent) :=
  let whale_sightings := dict_get (sightings whale_data) [] in
  let vessel_tracks := dict_get (vessels vessel_data) [] in
  if negb (truthy whale_sightings) || negb (truthy vessel_tracks) then
    ret []
  else
    try_except
      (let whales_gdf := whales_gdf_of whale_sightings in
       let vessels_gdf := vessels_gdf_of vessel_tracks in
       let all_pairs := merge_cross whales_gdf vessels_gdf in
       distances <- apply_rows calculate_distance all_pairs ;;
       let scored :=
         map (fun rd => {| row := fst rd; row_distance := snd rd |})
             (combine all_pairs distances) in
       let risk_events_df :=
         filter (fun r => Qle_bool (row_distance r) THRESHOLD_METERS) scored in
       ret (map to_record risk_events_df))
      (fun e =>
         raise (HTTPException 500
                  ("Data analysis with Pandas failed: " ++ str env e))).

Definition low_risk_summary : JsonDoc :=
  {| source := None; sightings := None; vessels := None;
     summary := Some "No high-risk proximity events were detected.";
     risk_level := Some "Low";
     recommended_action := Some "No action required. Continue monitoring." |}.

Definition failed_summary (e : exn) : JsonDoc :=
  {| source := None; sightings := None; vessels := None;
     summary := Some "AI summary generaton failed. See raw data.";
     risk_level := Some "Unknown";
     recommended_action := Some ("Investigate AI model error: " ++ str env e) |}.

Definition get_summary_and_action (risk_events : list RiskEvent) (zone : string)
  : M JsonDoc :=
  if negb (truthy risk_events) then
    ret low_risk_summary
  else
    try_except
      (response <- http_client_post (LLM_PROXY_URL env) (PromptBody zone risk_events) ;;
       raise_for_status response ;;;
       response_json response)
      (fun e => ret (failed_summary e)).

(** [await asyncio.gather(t1, t2, return_exceptions=True)]: both tasks run
    to their end and the two outcomes, result or exception, come back in
    the order of the arguments. *)
Definition gather {A : Type} (t1 t2 : M A) : M (list (exn + A)) :=
  fun tr =>
    let (r1, tr1) := t1 tr in
    let (r2, tr2) := t2 tr1 in
    (inr [r1; r2], tr2).

(** The loop that re-raises the first exception found in [results]. *)
Fixpoint raise_first {A : Type} (results : list (exn + A)) : M unit :=
  match results with
  | [] => ret tt
  | inl e :: _ => raise e
  | inr _ :: rest => raise_first rest
  end.

(** [d[key]] on a key held in an optional field. *)
Definition subscript {A : Type} (field : option A) (key : string) : M A :=
  match field with
  | Some v => ret v
  | None => raise (KeyError key)
  end.

Definition check_risk (request_zone : string) : M RiskReport :=
  let zone := request_zone in
  let whale_task := get_data_from_agent (BIOLOGIST_AGENT_URL env) zone in
  let vessel_task := get_data_from_agent (VESSEL_AGENT_URL env) zone in
  results <- gather whale_task vessel_task ;;
  (if existsb is_exception results then raise_first results else ret tt) ;;;
  match results with
  | [inr whale_data; inr vessel_data] =>
      subscript (source whale_data) "source" ;;;
      risk_events <- analyze_proximity_risk whale_data vessel_data ;;
      ai_summary <- get_summary_and_action risk_events zone ;;
      ret (Build_RiskReport zone ai_summary
             (Build_RiskData (List.length risk_events) risk_events)
             (Build_RawData whale_data vessel_data))
  | _ => raise (LibraryError "unpack")
  end.

End Regulator.

(** ** The mock agents and a stand-in for geopy

    The data below is what [biologist_agent/main.py] (version [v1]) and
    [vessel_agent/main.py] answer to any zone. *)
Module Mock.

(** [get_sightings], [DATA_SOURCE_VERSION == 'v1']. *)
Definition get_sightings : JsonDoc :=
  {| source := Some "v1 (Human Sightings)";
     sightings := Some
       [ Sighting.Build "human-1" "SRKW" 45.52 (-123.99);
         Sighting.Build "human-2" "SRKW" 45.55 (-123.98) ];
     vessels := None; summary := None; risk_level := None;
     recommended_action := None |}.

(** [get_vessel_tracks]. *)
Definition get_vessel_tracks : JsonDoc :=
  {| source := Some "Mocked AIS Feed";
     sightings := None;
     vessels := Some
       [ Vessel.Build "vessel-A" "Ferry" 45.53 (-123.985);
         Vessel.Build "vessel-B" "Recreational" 45.52 (-123.991);
         Vessel.Build "vessel-C" "Cargo" 45.56 (-124.01);
         Vessel.Build "vessel-D" "Recreational" 45.54 (-123.975) ];
     summary := None; risk_level := None; recommended_action := None |}.

(** A distance to run the model with: the equirectangular approximation
    around 45.5 degrees north, in metres per degree.  It stands in for
    geopy and rejects latitudes outside [-90, 90] as geopy does. *)
Definition latitude_ok (p : LatLon) : bool :=
  Qle_bool (-90 # 1) (fst p) && Qle_bool (fst p) (90 # 1).

Definition planar_distance (a b : LatLon) : exn + Q :=
  if latitude_ok a && latitude_ok b then
    inr (Qabs (fst a - fst b) * (111195 # 1) + Qabs (snd a - snd b) * (77940 # 1))%Q
  else
    inl (LibraryError "Latitude must be in the [-90; 90] range.").

Definition describe (e : exn) : string :=
  match e with
  | HTTPException _ detail => detail
  | HTTPStatusError text => text
  | RequestError reason => reason
  | JSONDecodeError reason => reason
  | KeyError key => key
  | LibraryError reason => reason
  | InvalidURL reason => reason
  end.

Definition a_summary : JsonDoc :=
  {| source := None; sightings := None; vessels := None;
     summary := Some "Two vessels came within one nautical mile of a whale.";
     risk_level := Some "Moderate";
     recommended_action := Some "Educational outreach." |}.

(** A network in which [whales], [ships] and [llm] are the answers of the
    three collaborators, whatever was called before. *)
Definition network (whales ships llm : HttpOutcome)
  : Trace -> string -> RequestBody -> HttpOutcome :=
  fun _ url _ =>
    if String.eqb url "http://biologist/get_sightings" then whales
    else if String.eqb url "http://vessel/get_vessel_tracks" then ships
    else llm.

Definition env_with (whales ships llm : HttpOutcome) : Env :=
  {| BIOLOGIST_AGENT_URL := "http://biologist/get_sightings";
     VESSEL_AGENT_URL := "http://vessel/get_vessel_tracks";
     LLM_PROXY_URL := "http://llm/generate_summary";
     transport := network whales ships llm;
     great_circle := planar_distance;
     str := describe |}.

Definition ok (doc : JsonDoc) : HttpOutcome :=
  Responded {| status := 200; text := "OK"; json := Some doc |}.

(** Everything up: both agents and the LLM proxy answer. *)
Definition healthy : Env :=
  env_with (ok get_sightings) (ok get_vessel_tracks) (ok a_summary).

(** The biologist agent times out; the vessel agent answers. *)
Definition biologist_down : Env :=
  env_with (Unreachable "timed out") (ok get_vessel_tracks) (ok a_summary).

(** The LLM proxy times out. *)
Definition llm_down : Env :=
  env_with (ok get_sightings) (ok get_vessel_tracks) (Unreachable "timed out").

(** A sighting reported with a latitude that is not one. *)
Definition stray_sightings : JsonDoc :=
  {| source := Some "v1 (Human Sightings)";
     sightings := Some [ Sighting.Build "human-1" "SRKW" 95.52 (-123.99) ];
     vessels := None; summary := None; risk_level := None;
     recommended_action := None |}.

Definition stray : Env :=
  env_with (ok stray_sightings) (ok get_vessel_tracks) (ok a_summary).

(** The biologist URL is set but cannot be parsed: the client raises before
    it sends anything. *)
Definition bad_biologist_url : Env :=
  {| BIOLOGIST_AGENT_URL := "http://biologist:port/get_sightings";
     VESSEL_AGENT_URL := "http://vessel/get_vessel_tracks";
     LLM_PROXY_URL := "http://llm/generate_summary";
     transport :=
       fun _ url _ =>
         if String.eqb url "http://biologist:port/get_sightings"
         then Raised (InvalidURL "Invalid port")
         else if String.eqb url "http://vessel/get_vessel_tracks"
              then ok get_vessel_tracks
              else ok a_summary;
     great_circle := planar_distance;
     str := describe |}.

(** The LLM proxy answers 200 with a JSON object that has none of the three
    keys of a summary. *)
Definition llm_off_shape : Env :=
  env_with (ok get_sightings) (ok get_vessel_tracks) (ok empty_doc).

(** Both agents are in trouble: the biologist times out and the vessel
    agent answers 500. *)
Definition both_down : Env :=
  env_with (Unreachable "timed out")
           (Responded {| status := 500; text := "vessel feed broken";
                         json := None |})
           (ok a_summary).

(** What the analysis finds in the mock data under [planar_distance]. *)
Definition expected_events : list RiskEvent :=
  [ {| vessel_id := "vessel-A"; vessel_class := "Ferry";
       whale_sighting_id := "human-1"; distance_meters := 1502 # 1 |};
    {| vessel_id := "vessel-B"; vessel_class := "Recreational";
       whale_sighting_id := "human-1"; distance_meters := 78 # 1 |};
    {| vessel_id := "vessel-D"; vessel_class := "Recreational";
       whale_sighting_id := "human-2"; distance_meters := 1502 # 1 |} ].

End Mock.

(** ** Vocabulary of the statements *)

(** The summarization call failed: the proxy cannot be reached, it answers
    with a status outside 2xx, or its body is not JSON. *)
Definition summarizer_failed (outcome : HttpOutcome) : Prop :=
  match outcome with
  | Unreachable _ => True
  | Responded response =>
      is_success (status response) = false \/ json response = None
  | Raised _ => True
  end.

(** A reply that is not a summary: its body is not JSON, or it is a JSON
    object that lacks one of the three keys of a summary. *)
Definition malformed_reply (response : Response) : Prop :=
  match json response with
  | None => True
  | Some doc =>
      summary doc = None \/ risk_level doc = None \/ recommended_action doc = None
  end.

(** The positions handed to geopy for a sighting and for a vessel. *)
Definition sighting_position (s : Sighting.t) : LatLon :=
  (Sighting.lat s, Sighting.lon s).

Definition vessel_position (v : Vessel.t) : LatLon :=
  (Vessel.lat v, Vessel.lon v).

(** [e] is the risk event of the pair [(s, v)]: the pair is within the
    threshold and [e] carries its identifiers and its rounded distance. *)
Definition risk_event_of (env : Env) (s : Sighting.t) (v : Vessel.t)
           (e : RiskEvent) : Prop :=
  exists d : Q,
    great_circle env (sighting_position s) (vessel_position v) = inr d /\
    (d <= 1852 # 1)%Q /\
    e = {| vessel_id := Vessel.id v;
           vessel_class := Vessel.class v;
           whale_sighting_id := Sighting.id s;
           distance_meters := round0 d |}.

(** The order of the cross product on pairs (position of the sighting,
    position of the vessel): the sighting first, then the vessel. *)
Definition cross_order (p q : nat * nat) : Prop :=
  (fst p < fst q)%nat \/ (fst p = fst q /\ (snd p < snd q)%nat).

(** The distance geopy gives for a row of [all_pairs]. *)
Definition measured (env : Env) (r : PairRow) (d : Q) : Prop :=
  great_circle env (y (geometry_whale r), x (geometry_whale r))
                   (y (geometry_vessel r), x (geometry_vessel r)) = inr d.

(** Steps 5 to 7 of the analysis on the rows and their distances. *)
Definition report_of (rows : list PairRow) (distances : list Q) : list RiskEvent :=
  map to_record
    (filter (fun r => Qle_bool (row_distance r) THRESHOLD_METERS)
       (map (fun rd => {| row := fst rd; row_distance := snd rd |})
          (combine rows distances))).

(** A fetch failed on the network: the agent cannot be reached (timeout,
    connection error) or it answers with a status outside 2xx. *)
Definition fetch_failed (outcome : HttpOutcome) : Prop :=
  match outcome with
  | Unreachable _ => True
  | Responded response => is_success (status response) = false
  | Raised _ => False
  end.

(** The error under which a failed fetch leaves [get_data_from_agent]. *)
Definition upstream_error (outcome : HttpOutcome) : exn :=
  match outcome with
  | Unreachable _ =>
      HTTPException 504 "Could not connect to downstream service"
  | Responded response =>
      HTTPException 503 ("Downstream service unavailable " ++ text response)
  | Raised e => e
  end.

(** What the two [except] clauses of [get_data_from_agent] make of an
    exception raised by the call: the status error becomes a 503 with the
    agent's text, the request error a 504, anything else goes on as it is. *)
Definition as_caught_by_fetch (e : exn) : exn :=
  match e with
  | HTTPStatusError response_text =>
      HTTPException 503 ("Downstream service unavailable " ++ response_text)
  | RequestError _ =>
      HTTPException 504 "Could not connect to downstream service"
  | _ => e
  end.

(** A fetch delivered [doc]: a 2xx answer whose body is the JSON [doc]. *)
Definition fetch_delivered (outcome : HttpOutcome) (doc : JsonDoc) : Prop :=
  match outcome with
  | Unreachable _ => False
  | Responded response =>
      is_success (status response) = true /\ json response = Some doc
  | Raised _ => False
  end.

(** The events are in the order of the cross product of the two payloads:
    they are the risk events of the pairs at some strictly increasing
    positions (sighting, vessel), and every pair within the threshold is at
    one of these positions. *)
Definition in_cross_order (env : Env) (whale_data vessel_data : JsonDoc)
           (evs : list RiskEvent) : Prop :=
  exists positions : list (nat * nat),
    StronglySorted cross_order positions /\
    Forall2 (fun e ij =>
               exists s v,
                 nth_error (dict_get (sightings whale_data) []) (fst ij) = Some s /\
                 nth_error (dict_get (vessels vessel_data) []) (snd ij) = Some v /\
                 risk_event_of env s v e)
            evs positions /\
    (forall i j s v d,
        nth_error (dict_get (sightings whale_data) []) i = Some s ->
        nth_error (dict_get (vessels vessel_data) []) j = Some v ->
        great_circle env (sighting_position s) (vessel_position v) = inr d ->
        (d <= 1852 # 1)%Q ->
        In (i, j) positions).

From Stdlib Require Import Lqa Ascii NArith.

(** ** Vocabulary of the further properties *)

(** The risk event of a pair measured at [d] metres. *)
Definition risk_event (s : Sighting.t) (v : Vessel.t) (d : Q) : RiskEvent :=
  {| vessel_id := Vessel.id v;
     vessel_class := Vessel.class v;
     whale_sighting_id := Sighting.id s;
     distance_meters := round0 d |}.

(** The distance of a pair under a distance function on positions. *)
Definition pair_distance (dist : LatLon -> LatLon -> Q)
           (p : Sighting.t * Vessel.t) : Q :=
  dist (sighting_position (fst p)) (vessel_position (snd p)).

(** The report written as a comprehension: the pairs of the cross product
    within the threshold, each turned into its risk event. *)
Definition proximity_report (dist : LatLon -> LatLon -> Q)
           (ss : list Sighting.t) (vs : list Vessel.t) : list RiskEvent :=
  map (fun p => risk_event (fst p) (snd p) (pair_distance dist p))
      (filter (fun p => Qle_bool (pair_distance dist p) THRESHOLD_METERS)
              (list_prod ss vs)).

(** The call to geopy made for a pair. *)
Definition distance_call (p : Sighting.t * Vessel.t) : Event :=
  GreatCircle (sighting_position (fst p)) (vessel_position (snd p)).

(** The row of [all_pairs] built from a pair. *)
Definition row_of_pair (p : Sighting.t * Vessel.t) : PairRow :=
  pair_row {| whale := fst p;
              whale_geometry :=
                points_from_xy (Sighting.lon (fst p)) (Sighting.lat (fst p)) |}
           {| vessel := snd p;
              vessel_geometry :=
                points_from_xy (Vessel.lon (snd p)) (Vessel.lat (snd p)) |}.

(** The call to geopy made for a row of [all_pairs]. *)
Definition row_call (r : PairRow) : Event :=
  GreatCircle (y (geometry_whale r), x (geometry_whale r))
              (y (geometry_vessel r), x (geometry_vessel r)).

(** The POSTs of a log, most recent first. *)
Definition posts (tr : Trace) : list (string * RequestBody) :=
  flat_map (fun ev => match ev with
                      | Post url body => [(url, body)]
                      | GreatCircle _ _ => []
                      end) tr.

(** The exception caught by [get_summary_and_action] after a failed call. *)
Definition summary_error (outcome : HttpOutcome) : exn :=
  match outcome with
  | Unreachable reason => RequestError reason
  | Responded response =>
      if is_success (status response)
      then JSONDecodeError "Expecting value"
      else HTTPStatusError (text response)
  | Raised e => e
  end.

(** ** The LLM proxy

    Source: [mesh_on_cloud_run/src/llm_proxy/main.py].  A Python [str] is a
    sequence of code points, here a list of [N]. *)
Module LlmProxy.

Local Open Scope list_scope.

Definition Text : Type := list N.

(** The code points of an ASCII literal. *)
Definition text_of (s : string) : Text :=
  map N_of_ascii (list_ascii_of_string s).

(** [str.isspace] on one code point: the Unicode white space of Python. *)
Definition isspace (c : N) : bool :=
  ((9 <=? c) && (c <=? 13) || (28 <=? c) && (c <=? 32)
   || (c =? 133) || (c =? 160) || (c =? 5760)
   || (8192 <=? c) && (c <=? 8202)
   || (c =? 8232) || (c =? 8233) || (c =? 8239) || (c =? 8287)
   || (c =? 12288))%N.

Fixpoint lstrip (t : Text) : Text :=
  match t with
  | [] => []
  | c :: rest => if isspace c then lstrip rest else t
  end.

(** [t.strip()] *)
Definition strip (t : Text) : Text := rev (lstrip (rev (lstrip t))).

Fixpoint starts_with (old t : Text) : bool :=
  match old, t with
  | [], _ => true
  | _ :: _, [] => false
  | a :: old', c :: t' => N.eqb a c && starts_with old' t'
  end.

(** [t.replace(old, new)] for a non-empty [old]: the occurrences of [old]
    are found from the left and do not overlap.  [skip] counts the code
    points of a found occurrence still to be passed over. *)
Fixpoint replace_from (old new t : Text) (skip : nat) : Text :=
  match t with
  | [] => []
  | c :: rest =>
      match skip with
      | S k => replace_from old new rest k
      | O =>
          if starts_with old t
          then new ++ replace_from old new rest (List.length old - 1)
          else c :: replace_from old new rest 0
      end
  end.

Definition replace (old new t : Text) : Text := replace_from old new t 0.

Definition backtick : N := 96%N.

(** The three backticks of a code fence, and the fence that opens a JSON
    block. *)
Definition fence : Text := [backtick; backtick; backtick].

Definition fence_json : Text := fence ++ [106; 115; 111; 110]%N.

(** [response.text.strip().replace('```json', '').replace('```', '')] *)
Definition clean_response (text : Text) : Text :=
  replace fence [] (replace fence_json [] (strip text)).

(** Whether three backticks in a row occur in a text. *)
Fixpoint contains_fence (t : Text) : bool :=
  match t with
  | [] => false
  | _ :: rest => starts_with fence t || contains_fence rest
  end.

(** The prompt of a request: the fixed text around a zone and a list of
    risk events. *)
Definition Prompt : Type := (string * list RiskEvent)%type.

(** What lives outside the repository: the model behind
    [llm.generate_content_async(prompt)] with the [.text] of its answer,
    [json.loads], and the text of exceptions. *)
Record Gemini : Type := {
  generate_content : Prompt -> exn + Text;
  json_loads : Text -> exn + JsonDoc;
  describe : exn -> string
}.

(** [get_gemini_api_key] on the value of [GOOGLE_API_KEY], if any. *)
Definition get_gemini_api_key (GOOGLE_API_KEY : option string) : exn + string :=
  match GOOGLE_API_KEY with
  | Some api_key =>
      if String.eqb api_key EmptyString
      then inl (HTTPException 500 "GOOGLE_API_KEY secret not configured")
      else inr api_key
  | None => inl (HTTPException 500 "GOOGLE_API_KEY secret not configured")
  end.

Definition generate_summary (llm : Gemini) (prompt : Prompt) : exn + JsonDoc :=
  match
    match generate_content llm prompt with
    | inl e => inl e
    | inr text => json_loads llm (clean_response text)
    end
  with
  | inl e => inl (HTTPException 500 (describe llm e))
  | inr doc => inr doc
  end.

End LlmProxy.

(** ** The biologist agent

    Source: [mesh_on_cloud_run/src/biologist_agent/main.py]. *)
Module BiologistAgent.

(** The JSON object returned by [get_sightings]. *)
Record Reply : Type := {
  source : string;
  zone : string;
  duration_sec : Q;
  sightings_count : nat;
  sightings : list Sighting.t
}.

(** [get_sightings] for a value of [DATA_SOURCE_VERSION]; [duration] is what
    the clock measured. *)
Definition get_sightings (DATA_SOURCE_VERSION : string) (duration : Q)
           (request_zone : string) : Reply :=
  let '(found, feed) :=
    if String.eqb DATA_SOURCE_VERSION "v1" then
      ([ Sighting.Build "human-1" "SRKW" 45.52 (-123.99);
         Sighting.Build "human-2" "SRKW" 45.55 (-123.98) ],
       "v1 (Human Sightings)")
    else
      ([ Sighting.Build "sensor-1" "SRKW" 45.53 (-123.98);
         Sighting.Build "sensor-2" "SRKW" 45.54 (-123.97);
         Sighting.Build "sensor-3" "SRKW" 45.55 (-124.00) ],
       "v2 (Acoustic Sensor Feed)") in
  {| source := feed;
     zone := request_zone;
     duration_sec := duration;
     sightings_count := List.length found;
     sightings := found |}.

(** The keys of a reply that the regulator reads. *)
Definition to_json (reply : Reply) : JsonDoc :=
  Build_JsonDoc (Some (source reply)) (Some (sightings reply)) None None None None.

End BiologistAgent.

(** ** The vessel agent

    Source: [mesh_on_cloud_run/src/vessel_agent/main.py]. *)
Module VesselAgent.

(** The JSON object returned by [get_vessel_tracks]. *)
Record Reply : Type := {
  source : string;
  zone : string;
  vessel_count : nat;
  vessels : list Vessel.t
}.

(** [data.get('zone', 'unknown')] on the body of the request. *)
Definition zone_of (data : RequestBody) : string :=
  match data with
  | ZoneBody zone => zone
  | PromptBody _ _ => "unknown"
  end.

Definition get_vessel_tracks (data : RequestBody) : Reply :=
  let tracked :=
    [ Vessel.Build "vessel-A" "Ferry" 45.53 (-123.985);
      Vessel.Build "vessel-B" "Recreational" 45.52 (-123.991);
      Vessel.Build "vessel-C" "Cargo" 45.56 (-124.01);
      Vessel.Build "vessel-D" "Recreational" 45.54 (-123.975) ] in
  {| source := "Mocked AIS Feed";
     zone := zone_of data;
     vessel_count := List.length tracked;
     vessels := tracked |}.

(** The keys of a reply that the regulator reads. *)
Definition to_json (reply : Reply) : JsonDoc :=
  Build_JsonDoc (Some (source reply)) None (Some (vessels reply)) None None None.

End VesselAgent.

(** ** The four services together

    Each service listens on the port of its [__main__] block, which is the
    port of the URL the regulator uses by default. *)
Module Mesh.

Record Deployment : Type := {
  DATA_SOURCE_VERSION : string;
  duration : Q;
  GOOGLE_API_KEY : option string;
  llm : LlmProxy.Gemini;
  geopy : LatLon -> LatLon -> exn + Q;
  describe : exn -> string;
  (** the text of the body FastAPI sends for an outcome of a handler *)
  body_text : exn + JsonDoc -> string
}.

(** What FastAPI makes of the outcome of a handler: 200 with the returned
    JSON, the status of an [HTTPException] with its detail, 500 for any
    other exception. *)
Definition fastapi_response (d : Deployment) (outcome : exn + JsonDoc) : Response :=
  match outcome with
  | inr doc =>
      {| status := 200; text := body_text d outcome; json := Some doc |}
  | inl (HTTPException status_code _) =>
      {| status := status_code; text := body_text d outcome; json := Some empty_doc |}
  | inl _ =>
      {| status := 500; text := "Internal Server Error"; json := None |}
  end.

(** The answer to a body that fails the validation of the request model. *)
Definition unprocessable (d : Deployment) : Response :=
  {| status := 422;
     text := body_text d (inl (HTTPException 422 "Field required"));
     json := Some empty_doc |}.

Definition biologist_url : string := "http://127.0.0.1:8081/get_sightings".
Definition vessel_url : string := "http://127.0.0.1:8082/get_vessel_tracks".
Definition llm_url : string := "http://127.0.0.1:8083/generate_summary".

Definition biologist_service (d : Deployment) (body : RequestBody) : HttpOutcome :=
  match body with
  | ZoneBody zone =>
      Responded
        (fastapi_response d
           (inr (BiologistAgent.to_json
                   (BiologistAgent.get_sightings
                      (DATA_SOURCE_VERSION d) (duration d) zone))))
  | PromptBody _ _ => Responded (unprocessable d)
  end.

Definition vessel_service (d : Deployment) (body : RequestBody) : HttpOutcome :=
  Responded
    (fastapi_response d
       (inr (VesselAgent.to_json (VesselAgent.get_vessel_tracks body)))).

(** The proxy leaves at start-up when the key is missing, and then nothing
    listens on its port. *)
Definition llm_service (d : Deployment) (body : RequestBody) : HttpOutcome :=
  match LlmProxy.get_gemini_api_key (GOOGLE_API_KEY d) with
  | inl _ => Unreachable "All connection attempts failed"
  | inr _ =>
      match body with
      | PromptBody zone risk_events =>
          Responded
            (fastapi_response d
               (LlmProxy.generate_summary (llm d) (zone, risk_events)))
      | ZoneBody _ => Responded (unprocessable d)
      end
  end.

Definition network (d : Deployment) : Trace -> string -> RequestBody -> HttpOutcome :=
  fun _ url body =>
    if String.eqb url biologist_url then biologist_service d body
    else if String.eqb url vessel_url then vessel_service d body
    else if String.eqb url llm_url then llm_service d body
    else Unreachable "All connection attempts failed".

(** The regulator with its default configuration. *)
Definition regulator (d : Deployment) : Env :=
  {| BIOLOGIST_AGENT_URL := biologist_url;
     VESSEL_AGENT_URL := vessel_url;
     LLM_PROXY_URL := llm_url;
     transport := network d;
     great_circle := geopy d;
     str := describe d |}.

(** The proxy cannot give a summary for a prompt: it is not running, or
    its handler raises. *)
Definition proxy_fails (d : Deployment) (prompt : LlmProxy.Prompt) : Prop :=
  GOOGLE_API_KEY d = None \/
  GOOGLE_API_KEY d = Some EmptyString \/
  exists e, LlmProxy.generate_summary (llm d) prompt = inl e.

(** A model to run the deployment with: it answers every prompt with one
    fenced JSON block, and [json.loads] knows the body of that block. *)
Definition answer_body : LlmProxy.Text :=
  LlmProxy.text_of " {summary, risk_level: Moderate, recommended_action} ".

Definition fenced_answer : LlmProxy.Text :=
  (LlmProxy.text_of " " ++ (LlmProxy.fence_json ++ answer_body ++ LlmProxy.fence)
   ++ LlmProxy.text_of " ")%list.

Definition sample_llm (answer : exn + LlmProxy.Text) : LlmProxy.Gemini :=
  {| LlmProxy.generate_content := fun _ => answer;
     LlmProxy.json_loads :=
       fun t => if list_eq_dec N.eq_dec t answer_body
                then inr Mock.a_summary
                else inl (JSONDecodeError "Expecting value");
     LlmProxy.describe := Mock.describe |}.

Definition sample (key : option string) (answer : exn + LlmProxy.Text) : Deployment :=
  {| DATA_SOURCE_VERSION := "v1";
     duration := 1;
     GOOGLE_API_KEY := key;
     llm := sample_llm answer;
     geopy := Mock.planar_distance;
     describe := Mock.describe;
     body_text := fun _ => "{}" |}.

End Mesh.

(** ** Running computations *)

Lemma bind_inr {A B : Type} (m : M A) (k : A -> M B) tr a tr1 :
  m tr = (inr a, tr1) -> bind m k tr = k a tr1.
Proof. intros H. unfold bind. rewrite H. reflexivity. Qed.

Lemma bind_inl {A B : Type} (m : M A) (k : A -> M B) tr e tr1 :
  m tr = (inl e, tr1) -> bind m k tr = (inl e, tr1).
Proof. intros H. unfold bind. rewrite H. reflexivity. Qed.

Lemma try_except_inr {A : Type} (m : M A) handler tr a tr1 :
  m tr = (inr a, tr1) -> try_except m handler tr = (inr a, tr1).
Proof. intros H. unfold try_except. rewrite H. reflexivity. Qed.

Lemma try_except_inl {A : Type} (m : M A) handler tr e tr1 :
  m tr = (inl e, tr1) -> try_except m handler tr = handler e tr1.
Proof. intros H. unfold try_except. rewrite H. reflexivity. Qed.

(** ** Rounding *)

Example round_half_even_ties :
  map round_half_even [1 # 2; 3 # 2; 5 # 2; -1 # 2; -3 # 2; 779 # 10; 7749 # 100]%Q
  = [0; 2; 2; 0; -2; 78; 77].
Proof. reflexivity. Qed.

Lemma round_half_even_le (q : Q) (n : Z) :
  (q <= inject_Z n)%Q -> round_half_even q <= n.
Proof.
  intros Hq.
  assert (Hfloor : Qfloor q <= n).
  { rewrite <- (Qfloor_Z n). apply Qfloor_resp_le. exact Hq. }
  assert (Hstep : Qfloor q = n -> (q - inject_Z (Qfloor q) < 1 # 2)%Q).
  { intros E. rewrite E.
    apply Qle_lt_trans with (y := 0%Q); [| reflexivity].
    apply (Qplus_le_l _ _ (inject_Z n)). ring_simplify. exact Hq. }
  unfold round_half_even.
  destruct (Qcompare_spec (q - inject_Z (Qfloor q)) (1 # 2)) as [E | L | G].
  - destruct (Z.even (Qfloor q)); [exact Hfloor |].
    destruct (Z.eq_dec (Qfloor q) n) as [En | Hn]; [| lia].
    specialize (Hstep En). rewrite E in Hstep.
    exfalso. revert Hstep. apply Qlt_irrefl.
  - exact Hfloor.
  - destruct (Z.eq_dec (Qfloor q) n) as [En | Hn]; [| lia].
    specialize (Hstep En).
    exfalso. apply (Qlt_irrefl (1 # 2)). eapply Qlt_trans; eassumption.
Qed.

Lemma round0_within_threshold (d : Q) :
  Qle_bool d THRESHOLD_METERS = true -> (round0 d <= 1852 # 1)%Q.
Proof.
  intros H. apply Qle_bool_iff in H.
  unfold round0. change (1852 # 1)%Q with (inject_Z 1852).
  rewrite <- Zle_Qle. apply round_half_even_le. exact H.
Qed.

(** ** Lists: positions, filters and the cross join *)

Lemma StronglySorted_map {A B : Type} (RA : A -> A -> Prop) (RB : B -> B -> Prop)
      (f : A -> B) (l : list A) :
  (forall a a', RA a a' -> RB (f a) (f a')) ->
  StronglySorted RA l -> StronglySorted RB (map f l).
Proof.
  intros Hmono Hl. induction Hl as [| a l Hl IH Hall]; simpl.
  - constructor.
  - constructor; [exact IH |].
    rewrite Forall_forall in *. intros b Hb.
    apply in_map_iff in Hb. destruct Hb as (a' & <- & Ha'). auto.
Qed.

(** The positions kept by a filter: increasing, each one holding the element
    it stands for, and none forgotten. *)
Lemma filter_positions {A : Type} (p : A -> bool) (l : list A) :
  exists ks : list nat,
    StronglySorted lt ks /\
    Forall2 (fun a k => nth_error l k = Some a /\ p a = true) (filter p l) ks /\
    (forall k a, nth_error l k = Some a -> p a = true -> In k ks).
Proof.
  induction l as [| a l (ks & Hsorted & Hkept & Hall)].
  - exists []. repeat split; try constructor.
    intros [| k] b H; discriminate.
  - assert (Hshift : StronglySorted lt (map S ks)).
    { apply StronglySorted_map with (RA := lt); [intros; lia | exact Hsorted]. }
    assert (Hkept' : Forall2 (fun b k => nth_error (a :: l) k = Some b /\ p b = true)
                             (filter p l) (map S ks)).
    { clear - Hkept. induction Hkept; simpl; constructor; auto. }
    simpl. destruct (p a) eqn:Hpa.
    + exists (0%nat :: map S ks). repeat split.
      * constructor; [exact Hshift |].
        apply Forall_forall. intros k Hk.
        apply in_map_iff in Hk. destruct Hk as (k' & <- & _). lia.
      * constructor; [split; [reflexivity | exact Hpa] | exact Hkept'].
      * intros [| k] b Hb Hpb; [left; reflexivity |].
        right. apply in_map. eapply Hall; eassumption.
    + exists (map S ks). repeat split; [exact Hshift | exact Hkept' |].
      intros [| k] b Hb Hpb.
      * simpl in Hb. inversion Hb; subst. congruence.
      * apply in_map. eapply Hall; eassumption.
Qed.

Lemma Forall2_nth_error_left {A B : Type} (R : A -> B -> Prop) l1 l2 k a :
  Forall2 R l1 l2 -> nth_error l1 k = Some a ->
  exists b, nth_error l2 k = Some b /\ R a b.
Proof.
  intros H. revert k. induction H as [| a0 b0 l1 l2 Hab _ IH]; intros [| k] Hk;
    try discriminate; simpl in *.
  - inversion Hk; subst. eauto.
  - auto.
Qed.

Lemma Forall2_nth_error_right {A B : Type} (R : A -> B -> Prop) l1 l2 k b :
  Forall2 R l1 l2 -> nth_error l2 k = Some b ->
  exists a, nth_error l1 k = Some a /\ R a b.
Proof.
  intros H. revert k. induction H as [| a0 b0 l1 l2 Hab _ IH]; intros [| k] Hk;
    try discriminate; simpl in *.
  - inversion Hk; subst. eauto.
  - auto.
Qed.

Lemma merge_cross_length left right :
  List.length (merge_cross left right) = (List.length left * List.length right)%nat.
Proof.
  unfold merge_cross. induction left as [| w left IH]; simpl.
  - reflexivity.
  - rewrite length_app, length_map, IH. reflexivity.
Qed.

Lemma merge_cross_nil_right left : merge_cross left [] = [].
Proof. unfold merge_cross. induction left; simpl; auto. Qed.

(** Row [k] of the cross join pairs left row [k / m] with right row
    [k mod m], for [m] the number of right rows. *)
Lemma merge_cross_nth_error left right k r :
  nth_error (merge_cross left right) k = Some r ->
  exists w v,
    nth_error left (k / List.length right) = Some w /\
    nth_error right (k mod List.length right) = Some v /\
    r = pair_row w v.
Proof.
  set (m := List.length right).
  assert (Hm : forall w, List.length (map (pair_row w) right) = m)
    by (intros; apply length_map).
  unfold merge_cross. revert k. induction left as [| w left IH]; intros k Hk; simpl in Hk.
  - destruct k; discriminate.
  - destruct (Nat.lt_ge_cases k m) as [Hlt | Hge].
    + rewrite nth_error_app1 in Hk by (rewrite Hm; exact Hlt).
      rewrite nth_error_map in Hk.
      destruct (nth_error right k) as [v |] eqn:Hv; [| discriminate].
      inversion Hk; subst r.
      exists w, v. rewrite Nat.div_small, Nat.mod_small by exact Hlt. auto.
    + rewrite nth_error_app2 in Hk by (rewrite Hm; exact Hge).
      rewrite Hm in Hk.
      assert (Hpos : (0 < m)%nat).
      { apply nth_error_In in Hk.
        apply in_flat_map in Hk. destruct Hk as (w' & _ & Hin).
        apply in_map_iff in Hin. destruct Hin as (v & _ & Hin).
        subst m. destruct right; [destruct Hin | simpl; lia]. }
      destruct (IH _ Hk) as (w' & v & Hw' & Hv & ->).
      assert (Ek : k = ((k - m) + 1 * m)%nat) by lia.
      exists w', v. repeat split.
      * rewrite Ek, Nat.div_add by lia. rewrite Nat.add_1_r. exact Hw'.
      * rewrite Ek, Nat.Div0.mod_add. exact Hv.
Qed.

Lemma merge_cross_at left right i j w v :
  nth_error left i = Some w -> nth_error right j = Some v ->
  nth_error (merge_cross left right) (i * List.length right + j) = Some (pair_row w v).
Proof.
  intros Hw Hv.
  assert (Hj : (j < List.length right)%nat) by (apply nth_error_Some; congruence).
  unfold merge_cross. revert i Hw. induction left as [| w0 left IH]; intros i Hw.
  - destruct i; discriminate.
  - simpl. destruct i as [| i]; simpl in Hw.
    + inversion Hw; subst w0. simpl.
      rewrite nth_error_app1 by (rewrite length_map; exact Hj).
      rewrite nth_error_map, Hv. reflexivity.
    + rewrite nth_error_app2 by (rewrite length_map; simpl; lia).
      rewrite length_map.
      replace (S i * List.length right + j - List.length right)%nat
        with (i * List.length right + j)%nat by (simpl; lia).
      apply IH. exact Hw.
Qed.

Lemma cross_order_of_position (m k k' : nat) :
  (k < k')%nat -> cross_order (k / m, k mod m)%nat (k' / m, k' mod m)%nat.
Proof.
  intros Hlt. unfold cross_order. simpl.
  destruct m as [| m]; [simpl; right; split; [reflexivity | exact Hlt] |].
  pose proof (Nat.div_mod_eq k (S m)) as Ek.
  pose proof (Nat.div_mod_eq k' (S m)) as Ek'.
  pose proof (Nat.Div0.div_le_mono k k' (S m) (Nat.lt_le_incl _ _ Hlt)) as Hdiv.
  destruct (Nat.eq_dec (k / S m) (k' / S m)) as [E | N].
  - right. split; [exact E |]. rewrite E in Ek. lia.
  - left. lia.
Qed.

(** ** The analysis *)

Section Analysis.

Variable env : Env.

Lemma apply_rows_measured rows :
  forall tr ds tr',
    apply_rows (calculate_distance env) rows tr = (inr ds, tr') ->
    Forall2 (measured env) rows ds.
Proof.
  induction rows as [| r rows IH]; intros tr ds tr' H; simpl in H.
  - inversion H; subst. constructor.
  - unfold bind in H. unfold calculate_distance at 1 in H.
    destruct (great_circle env _ _) as [e | d] eqn:Hd; [discriminate |].
    destruct (apply_rows (calculate_distance env) rows _) as [[e | ds'] tr1] eqn:Hrest;
      [discriminate |].
    inversion H; subst. constructor; [exact Hd | eauto].
Qed.

Lemma apply_rows_returns rows :
  Forall (fun r => exists d, measured env r d) rows ->
  forall tr, exists ds tr',
    apply_rows (calculate_distance env) rows tr = (inr ds, tr').
Proof.
  induction 1 as [| r rows (d & Hd) _ IH]; intros tr; simpl.
  - eexists _, _. reflexivity.
  - unfold bind. unfold calculate_distance at 1.
    unfold measured in Hd. rewrite Hd.
    destruct (IH (GreatCircle (y (geometry_whale r), x (geometry_whale r))
                              (y (geometry_vessel r), x (geometry_vessel r)) :: tr))
      as (ds & tr' & ->).
    eexists _, _. reflexivity.
Qed.

(** What a returning analysis has computed. *)
Lemma analyze_returns_inv whale_data vessel_data tr evs tr' :
  analyze_proximity_risk env whale_data vessel_data tr = (inr evs, tr') ->
  exists ds,
    let rows := merge_cross (whales_gdf_of (dict_get (sightings whale_data) []))
                            (vessels_gdf_of (dict_get (vessels vessel_data) [])) in
    Forall2 (measured env) rows ds /\ evs = report_of rows ds.
Proof.
  unfold analyze_proximity_risk.
  destruct (dict_get (sightings whale_data) []) as [| s ss] eqn:Hs.
  { simpl. intros H. inversion H; subst. exists []. split; [constructor | reflexivity]. }
  destruct (dict_get (vessels vessel_data) []) as [| v vs] eqn:Hv.
  { simpl. intros H. inversion H; subst. exists [].
    rewrite merge_cross_nil_right. split; [constructor | reflexivity]. }
  cbn [truthy negb orb]. unfold try_except, bind.
  destruct (apply_rows _ _ tr) as [[e | ds] tr1] eqn:Happly.
  - intros H. discriminate H.
  - intros H. inversion H; subst. exists ds. split; [| reflexivity].
    eapply apply_rows_measured. exact Happly.
Qed.

Lemma report_of_length rows ds :
  (List.length (report_of rows ds) <= List.length rows)%nat.
Proof.
  unfold report_of. rewrite length_map.
  etransitivity; [apply filter_length_le |].
  rewrite length_map, length_combine. lia.
Qed.

Lemma report_of_within_threshold rows ds :
  Forall (fun e => (distance_meters e <= 1852 # 1)%Q) (report_of rows ds).
Proof.
  unfold report_of. apply Forall_forall. intros e He.
  apply in_map_iff in He. destruct He as (sr & <- & Hsr).
  apply filter_In in Hsr. destruct Hsr as [_ Hle].
  simpl. apply round0_within_threshold. exact Hle.
Qed.

Lemma scored_rows rows ds :
  Forall2 (measured env) rows ds ->
  Forall2 (fun r sr => row sr = r /\ measured env r (row_distance sr))
          rows
          (map (fun rd => {| row := fst rd; row_distance := snd rd |})
               (combine rows ds)).
Proof.
  induction 1; simpl; constructor; auto.
Qed.

End Analysis.

Lemma analyze_skips env whale_data vessel_data tr :
  dict_get (sightings whale_data) [] = [] \/
  dict_get (vessels vessel_data) [] = [] ->
  analyze_proximity_risk env whale_data vessel_data tr = (inr [], tr).
Proof.
  intros H. unfold analyze_proximity_risk.
  destruct H as [H | H]; rewrite H; simpl.
  - reflexivity.
  - rewrite orb_true_r. reflexivity.
Qed.

(** Whatever goes wrong inside the analysis leaves it as a 500. *)
Lemma analyze_raises_500 env whale_data vessel_data tr e tr' :
  analyze_proximity_risk env whale_data vessel_data tr = (inl e, tr') ->
  exists cause,
    e = HTTPException 500 ("Data analysis with Pandas failed: " ++ str env cause).
Proof.
  unfold analyze_proximity_risk.
  destruct (negb (truthy (dict_get (sightings whale_data) []))
            || negb (truthy (dict_get (vessels vessel_data) []))).
  - intros H. discriminate H.
  - unfold try_except.
    destruct (bind _ _ tr) as [[cause | evs] tr1]; intros H.
    + inversion H; subst. exists cause. reflexivity.
    + discriminate H.
Qed.

Lemma measured_pair_row env s v d :
  measured env
    (pair_row {| whale := s;
                 whale_geometry := points_from_xy (Sighting.lon s) (Sighting.lat s) |}
              {| vessel := v;
                 vessel_geometry := points_from_xy (Vessel.lon v) (Vessel.lat v) |}) d <->
  great_circle env (sighting_position s) (vessel_position v) = inr d.
Proof. unfold measured. simpl. reflexivity. Qed.

(** C2: when the sightings or the vessels are empty the analysis returns the
    empty list and the log of external calls is unchanged: no distance was
    computed on the way. *)
Theorem analyze_empty_input env whale_data vessel_data tr :
  sightings whale_data = Some [] \/ vessels vessel_data = Some [] ->
  analyze_proximity_risk env whale_data vessel_data tr = (inr [], tr).
Proof.
  intros H. apply analyze_skips.
  destruct H as [H | H]; rewrite H; simpl; auto.
Qed.

Lemma analyze_empty_input_witness :
  analyze_proximity_risk Mock.healthy
    (Build_JsonDoc (Some "v2 (Acoustic Sensor Feed)") (Some []) None None None None)
    Mock.get_vessel_tracks [] = (inr [], []).
Proof.
  apply analyze_empty_input. left. reflexivity.
Defined.

(** C9: a payload without its ["sightings"] key, or without its ["vessels"]
    key, is read as an empty collection: the analysis returns the empty list
    and raises nothing. *)
Theorem analyze_missing_key env whale_data vessel_data tr :
  sightings whale_data = None \/ vessels vessel_data = None ->
  analyze_proximity_risk env whale_data vessel_data tr = (inr [], tr).
Proof.
  intros H. apply analyze_skips.
  destruct H as [H | H]; rewrite H; simpl; auto.
Qed.

Lemma analyze_missing_key_witness :
  analyze_proximity_risk Mock.healthy Mock.get_sightings empty_doc [] = (inr [], []).
Proof.
  apply analyze_missing_key. right. reflexivity.
Defined.

(** C1: on non-empty sightings and vessels, the analysis returns as soon as
    geopy gives a distance for every pair, and whatever it returns has at most
    |sightings| x |vessels| risk events, each with [distance_meters] at most
    1852. *)
Theorem analyze_bounds env whale_data vessel_data ss vs tr :
  sightings whale_data = Some ss ->
  vessels vessel_data = Some vs ->
  ss <> [] ->
  vs <> [] ->
  ((forall s v, In s ss -> In v vs ->
      exists d, great_circle env (sighting_position s) (vessel_position v) = inr d) ->
   exists evs tr',
     analyze_proximity_risk env whale_data vessel_data tr = (inr evs, tr')) /\
  (forall evs tr',
     analyze_proximity_risk env whale_data vessel_data tr = (inr evs, tr') ->
     (List.length evs <= List.length ss * List.length vs)%nat /\
     Forall (fun e => (distance_meters e <= 1852 # 1)%Q) evs).
Proof.
  intros Hs Hv Hss Hvs. split.
  - intros Hgeo.
    unfold analyze_proximity_risk. rewrite Hs, Hv. unfold dict_get.
    destruct ss as [| s0 ss']; [contradiction |].
    destruct vs as [| v0 vs']; [contradiction |].
    cbn [truthy negb orb].
    destruct (apply_rows_returns env
                (merge_cross (whales_gdf_of (s0 :: ss')) (vessels_gdf_of (v0 :: vs'))))
      with (tr := tr) as (ds & tr' & Hrun).
    + apply Forall_forall. intros r Hr.
      unfold merge_cross in Hr. apply in_flat_map in Hr.
      destruct Hr as (w & Hw & Hr).
      apply in_map_iff in Hr. destruct Hr as (vr & <- & Hvr).
      apply in_map_iff in Hw. destruct Hw as (s & <- & Hs').
      apply in_map_iff in Hvr. destruct Hvr as (v & <- & Hv').
      destruct (Hgeo s v Hs' Hv') as (d & Hd).
      exists d. apply measured_pair_row. exact Hd.
    + eexists _, _. apply try_except_inr.
      erewrite bind_inr by exact Hrun. reflexivity.
  - intros evs tr' Hrun.
    apply analyze_returns_inv in Hrun. destruct Hrun as (ds & _ & ->).
    rewrite Hs, Hv. unfold dict_get. split.
    + etransitivity; [apply report_of_length |].
      rewrite merge_cross_length.
      unfold whales_gdf_of, vessels_gdf_of. rewrite !length_map. reflexivity.
    + apply report_of_within_threshold.
Qed.

Lemma analyze_bounds_witness :
  exists evs tr',
    analyze_proximity_risk Mock.healthy Mock.get_sightings Mock.get_vessel_tracks []
    = (inr evs, tr') /\
    (List.length evs <= 2 * 4)%nat /\
    Forall (fun e => (distance_meters e <= 1852 # 1)%Q) evs.
Proof.
  destruct (analyze_bounds Mock.healthy Mock.get_sightings Mock.get_vessel_tracks
              _ _ [] eq_refl eq_refl ltac:(discriminate) ltac:(discriminate))
    as [Hreturns Hbounds].
  destruct Hreturns as (evs & tr' & Hrun).
  - intros s v Hs Hv. simpl in Hs, Hv.
    repeat match goal with
           | H : _ \/ _ |- _ => destruct H
           | H : False |- _ => destruct H
           end; subst; eexists; vm_compute; reflexivity.
  - exists evs, tr'. split; [exact Hrun |]. exact (Hbounds evs tr' Hrun).
Defined.

(** C7: the risk events come in the order of the cross product, the
    sightings outermost and the vessels innermost.  There is a list of
    positions (sighting, vessel), strictly increasing in that order, such
    that the events are, one for one and in this order, the risk events of
    the pairs at these positions; every pair within the threshold is among
    them. *)
Theorem analyze_order env whale_data vessel_data tr evs tr' :
  analyze_proximity_risk env whale_data vessel_data tr = (inr evs, tr') ->
  in_cross_order env whale_data vessel_data evs.
Proof.
  unfold in_cross_order.
  intros Hrun.
  apply analyze_returns_inv in Hrun. destruct Hrun as (ds & Hds & ->).
  set (ss := dict_get (sightings whale_data) []) in *.
  set (vs := dict_get (vessels vessel_data) []) in *.
  set (rows := merge_cross (whales_gdf_of ss) (vessels_gdf_of vs)) in *.
  cbv zeta in Hds.
  pose proof (scored_rows env rows ds Hds) as Hscored.
  unfold report_of.
  set (scored := map (fun rd => {| row := fst rd; row_distance := snd rd |})
                     (combine rows ds)) in *.
  set (close := fun r : ScoredRow => Qle_bool (row_distance r) THRESHOLD_METERS).
  destruct (filter_positions close scored) as (ks & Hsorted & Hkept & Hall).
  set (m := List.length vs).
  assert (Hm : List.length (vessels_gdf_of vs) = m) by apply length_map.
  exists (map (fun k => (k / m, k mod m)%nat) ks). split; [| split].
  - apply StronglySorted_map with (RA := lt); [| exact Hsorted].
    intros k k'. apply cross_order_of_position.
  - clear Hall Hsorted. induction Hkept as [| sr k kept ks' [Hk Hclose] _ IH]; simpl.
    + constructor.
    + constructor; [| exact IH]. simpl.
      destruct (Forall2_nth_error_right _ _ _ _ _ Hscored Hk) as (r & Hr & Hrow & Hd).
      destruct (merge_cross_nth_error _ _ _ _ Hr) as (w & vr & Hw & Hvr & Er).
      rewrite Hm in Hw, Hvr.
      unfold whales_gdf_of in Hw. rewrite nth_error_map in Hw.
      destruct (nth_error ss (k / m)) as [s |] eqn:Hs; [| discriminate].
      unfold vessels_gdf_of in Hvr. rewrite nth_error_map in Hvr.
      destruct (nth_error vs (k mod m)) as [v |] eqn:Hv; [| discriminate].
      inversion Hw; subst w. inversion Hvr; subst vr. clear Hw Hvr.
      exists s, v. repeat split.
      exists (row_distance sr). subst r. rewrite Er in Hd.
      apply (proj1 (measured_pair_row _ _ _ _)) in Hd. repeat split.
      * exact Hd.
      * apply Qle_bool_iff. exact Hclose.
      * unfold to_record. rewrite Er. reflexivity.
  - intros i j s v d Hs Hv Hd Hle.
    assert (Hj : (j < m)%nat) by (apply nth_error_Some; congruence).
    assert (Hr : nth_error rows (i * m + j) =
                 Some (pair_row {| whale := s;
                                   whale_geometry :=
                                     points_from_xy (Sighting.lon s) (Sighting.lat s) |}
                                {| vessel := v;
                                   vessel_geometry :=
                                     points_from_xy (Vessel.lon v) (Vessel.lat v) |})).
    { subst rows. rewrite <- Hm. apply merge_cross_at.
      - unfold whales_gdf_of. rewrite nth_error_map, Hs. reflexivity.
      - unfold vessels_gdf_of. rewrite nth_error_map, Hv. reflexivity. }
    destruct (Forall2_nth_error_left _ _ _ _ _ Hscored Hr) as (sr & Hsr & Hrow & Hmeasured).
    apply (proj1 (measured_pair_row _ _ _ _)) in Hmeasured.
    rewrite Hd in Hmeasured. inversion Hmeasured as [Ed].
    assert (Hin : In (i * m + j)%nat ks).
    { apply (Hall _ sr Hsr). unfold close. rewrite <- Ed.
      apply Qle_bool_iff. exact Hle. }
    apply in_map_iff. exists (i * m + j)%nat. split; [| exact Hin].
    rewrite Nat.div_add_l by lia. rewrite Nat.div_small by exact Hj.
    rewrite (Nat.add_comm (i * m) j), Nat.Div0.mod_add, Nat.mod_small by exact Hj.
    rewrite Nat.add_0_r. reflexivity.
Qed.

Lemma analyze_order_witness :
  in_cross_order Mock.healthy Mock.get_sightings Mock.get_vessel_tracks
                 Mock.expected_events.
Proof.
  apply (analyze_order Mock.healthy Mock.get_sightings Mock.get_vessel_tracks []
           Mock.expected_events
           (snd (analyze_proximity_risk Mock.healthy Mock.get_sightings
                   Mock.get_vessel_tracks []))).
  vm_compute. reflexivity.
Defined.

(** ** The summary *)

(** The summary step returns whatever the LLM proxy does. *)
Lemma get_summary_and_action_returns env risk_events zone tr :
  exists doc tr', get_summary_and_action env risk_events zone tr = (inr doc, tr').
Proof.
  unfold get_summary_and_action.
  destruct (negb (truthy risk_events)); [eexists _, _; reflexivity |].
  unfold try_except.
  destruct (bind _ _ tr) as [[e | doc] tr']; eexists _, _; reflexivity.
Qed.

(** X7: a 2xx answer of the LLM proxy with a JSON body is returned as it
    came, whatever keys it has; its shape is not looked at. *)
Lemma summary_passes_through env risk_events zone tr response doc :
  risk_events <> [] ->
  transport env tr (LLM_PROXY_URL env) (PromptBody zone risk_events)
  = Responded response ->
  is_success (status response) = true ->
  json response = Some doc ->
  get_summary_and_action env risk_events zone tr
  = (inr doc, Post (LLM_PROXY_URL env) (PromptBody zone risk_events) :: tr).
Proof.
  intros Hne Hout Hstatus Hbody. unfold get_summary_and_action.
  destruct risk_events as [| ev rest]; [contradiction |]. simpl.
  unfold try_except, bind, http_client_post. rewrite Hout.
  unfold raise_for_status, response_json. rewrite Hstatus, Hbody. reflexivity.
Qed.

(** C4: with no risk event the summary is the fixed low-risk one and the log
    of external calls is unchanged: the LLM proxy was not called. *)
Theorem summary_without_events env zone tr :
  get_summary_and_action env [] zone tr = (inr low_risk_summary, tr) /\
  risk_level low_risk_summary = Some "Low".
Proof. split; reflexivity. Qed.

(** C3 as stated fails when "malformed" covers a reply of the wrong shape.
    The LLM proxy answers 200 with a JSON object that has no ["risk_level"]:
    the reply is malformed, and the function returns it as it came, so the
    risk level of what it returns is not ["Unknown"]. *)
Lemma wrong_shape_reply_is_returned :
  transport Mock.llm_off_shape [] (LLM_PROXY_URL Mock.llm_off_shape)
    (PromptBody "zone-7" Mock.expected_events)
  = Responded {| status := 200; text := "OK"; json := Some empty_doc |} /\
  malformed_reply {| status := 200; text := "OK"; json := Some empty_doc |} /\
  get_summary_and_action Mock.llm_off_shape Mock.expected_events "zone-7" []
  = (inr empty_doc,
     [ Post "http://llm/generate_summary" (PromptBody "zone-7" Mock.expected_events) ]) /\
  ~ (exists doc tr',
        get_summary_and_action Mock.llm_off_shape Mock.expected_events "zone-7" []
        = (inr doc, tr') /\
        risk_level doc = Some "Unknown").
Proof.
  split; [reflexivity |]. split; [left; reflexivity |]. split; [reflexivity |].
  intros (doc & tr' & Hrun & Hlevel).
  vm_compute in Hrun. inversion Hrun; subst doc. discriminate Hlevel.
Qed.

(** C3, amended: with at least one risk event, when the LLM proxy is
    unreachable, answers with a status outside 2xx, sends a body that is not
    JSON, or the call raises anything else, the function returns a summary
    whose risk level is ["Unknown"]; it returns, it does not raise.  (A 2xx
    answer whose body is JSON is outside this: it is returned as it came.) *)
Theorem summary_failure_is_unknown env risk_events zone tr :
  risk_events <> [] ->
  summarizer_failed
    (transport env tr (LLM_PROXY_URL env) (PromptBody zone risk_events)) ->
  exists doc tr',
    get_summary_and_action env risk_events zone tr = (inr doc, tr') /\
    risk_level doc = Some "Unknown".
Proof.
  intros Hne Hfail.
  unfold get_summary_and_action.
  destruct risk_events as [| ev rest]; [contradiction |]. simpl.
  unfold try_except, bind, http_client_post.
  destruct (transport env tr (LLM_PROXY_URL env) (PromptBody zone (ev :: rest)))
    as [reason | response | raised]; simpl in *.
  - eexists _, _. split; reflexivity.
  - unfold raise_for_status, response_json.
    destruct Hfail as [Hstatus | Hbody].
    + rewrite Hstatus. simpl. eexists _, _. split; reflexivity.
    + rewrite Hbody.
      destruct (is_success (status response)); simpl;
        eexists _, _; split; reflexivity.
  - eexists _, _. split; reflexivity.
Qed.

Lemma summary_failure_is_unknown_witness :
  exists doc tr',
    get_summary_and_action Mock.llm_down Mock.expected_events "zone-7" []
    = (inr doc, tr') /\
    risk_level doc = Some "Unknown".
Proof.
  apply summary_failure_is_unknown.
  - discriminate.
  - simpl. exact I.
Defined.

(** ** The orchestration *)

Section Orchestration.

Variable env : Env.
Variable request_zone : string.
Variables tr tr1 tr2 : Trace.
Variables whale_result vessel_result : exn + JsonDoc.

Hypothesis whale_fetch :
  get_data_from_agent env (BIOLOGIST_AGENT_URL env) request_zone tr = (whale_result, tr1).
Hypothesis vessel_fetch :
  get_data_from_agent env (VESSEL_AGENT_URL env) request_zone tr1 = (vessel_result, tr2).

Lemma gather_fetches :
  gather (get_data_from_agent env (BIOLOGIST_AGENT_URL env) request_zone)
         (get_data_from_agent env (VESSEL_AGENT_URL env) request_zone) tr
  = (inr [whale_result; vessel_result], tr2).
Proof. unfold gather. rewrite whale_fetch, vessel_fetch. reflexivity. Qed.

Lemma check_risk_whale_error e :
  whale_result = inl e -> check_risk env request_zone tr = (inl e, tr2).
Proof.
  intros Hwhale. unfold check_risk.
  erewrite bind_inr by apply gather_fetches.
  rewrite Hwhale. reflexivity.
Qed.

Lemma check_risk_vessel_error doc e :
  whale_result = inr doc -> vessel_result = inl e ->
  check_risk env request_zone tr = (inl e, tr2).
Proof.
  intros Hwhale Hvessel. unfold check_risk.
  erewrite bind_inr by apply gather_fetches.
  rewrite Hwhale, Hvessel. reflexivity.
Qed.

Lemma check_risk_after_fetches whale_doc vessel_doc :
  whale_result = inr whale_doc -> vessel_result = inr vessel_doc ->
  check_risk env request_zone tr =
  bind (subscript (source whale_doc) "source")
       (fun _ =>
          bind (analyze_proximity_risk env whale_doc vessel_doc)
               (fun risk_events =>
                  bind (get_summary_and_action env risk_events request_zone)
                       (fun ai_summary =>
                          ret (Build_RiskReport request_zone ai_summary
                                 (Build_RiskData (List.length risk_events) risk_events)
                                 (Build_RawData whale_doc vessel_doc)))))
       tr2.
Proof.
  intros Hwhale Hvessel. unfold check_risk.
  erewrite bind_inr by apply gather_fetches.
  rewrite Hwhale, Hvessel. reflexivity.
Qed.

End Orchestration.

(** Runs [get_data_from_agent] on a configured URL up to the answer of the
    network, and splits on that answer. *)
Ltac run_fetch env url zone tr :=
  unfold get_data_from_agent;
  destruct (String.eqb_spec url EmptyString) as [? | _]; [contradiction |];
  unfold try_except, bind, http_client_post;
  destruct (transport env tr url (ZoneBody zone))
    as [reason | response | raised];
  simpl in *.

(** A fetch that fails on the network raises: 504 when the agent cannot be
    reached, 503 with the agent's text when it answers outside 2xx. *)
Lemma network_failure_fails_fetch env url zone tr :
  url <> EmptyString ->
  fetch_failed (transport env tr url (ZoneBody zone)) ->
  get_data_from_agent env url zone tr
  = (inl (upstream_error (transport env tr url (ZoneBody zone))),
     Post url (ZoneBody zone) :: tr).
Proof.
  intros Hurl Hfail. run_fetch env url zone tr.
  - reflexivity.
  - unfold raise_for_status. rewrite Hfail. reflexivity.
  - contradiction.
Qed.

Lemma delivery_returns env url zone tr doc :
  url <> EmptyString ->
  fetch_delivered (transport env tr url (ZoneBody zone)) doc ->
  get_data_from_agent env url zone tr = (inr doc, Post url (ZoneBody zone) :: tr).
Proof.
  intros Hurl Hdelivered. run_fetch env url zone tr.
  - contradiction.
  - destruct Hdelivered as [Hstatus Hbody].
    unfold raise_for_status, response_json. rewrite Hstatus, Hbody. reflexivity.
  - contradiction.
Qed.

(** A fetch logs exactly its POST, whatever comes of it. *)
Lemma fetch_log env url zone tr :
  url <> EmptyString ->
  snd (get_data_from_agent env url zone tr) = Post url (ZoneBody zone) :: tr.
Proof.
  intros Hurl. run_fetch env url zone tr.
  - reflexivity.
  - unfold raise_for_status, response_json.
    destruct (is_success (status response)); simpl; [| reflexivity].
    destruct (json response); reflexivity.
  - destruct raised; reflexivity.
Qed.

(** The first failed fetch decides: its exception is the one that leaves
    [check_risk], on the log left by the second fetch. *)
Lemma fetch_failure_surfaces env request_zone tr whale_result tr1 vessel_result tr2 :
  get_data_from_agent env (BIOLOGIST_AGENT_URL env) request_zone tr
  = (whale_result, tr1) ->
  get_data_from_agent env (VESSEL_AGENT_URL env) request_zone tr1
  = (vessel_result, tr2) ->
  is_exception whale_result = true \/ is_exception vessel_result = true ->
  exists e,
    check_risk env request_zone tr = (inl e, tr2) /\
    (whale_result = inl e \/
     (is_exception whale_result = false /\ vessel_result = inl e)).
Proof.
  intros Hwhale Hvessel Hfail.
  destruct whale_result as [e | whale_doc].
  - exists e. split; [| left; reflexivity].
    eapply check_risk_whale_error; eauto.
  - destruct vessel_result as [e | vessel_doc].
    + exists e. split; [| right; split; reflexivity].
      eapply check_risk_vessel_error; eauto.
    + destruct Hfail as [H | H]; discriminate H.
Qed.

(** C5 as stated fails when both fetches fail.  The biologist agent times
    out and the vessel agent answers 500: the request fails with the
    biologist's 504 on the very log and with the very error of a request
    whose vessel agent answered well, so the vessel's error is reported
    nowhere. *)
Lemma second_failure_goes_unreported :
  fetch_failed (transport Mock.both_down [] (BIOLOGIST_AGENT_URL Mock.both_down)
                  (ZoneBody "zone-7")) /\
  fetch_failed (transport Mock.both_down
                  [ Post "http://biologist/get_sightings" (ZoneBody "zone-7") ]
                  (VESSEL_AGENT_URL Mock.both_down) (ZoneBody "zone-7")) /\
  check_risk Mock.both_down "zone-7" []
  = (inl (HTTPException 504 "Could not connect to downstream service"),
     [ Post "http://vessel/get_vessel_tracks" (ZoneBody "zone-7");
       Post "http://biologist/get_sightings" (ZoneBody "zone-7") ]) /\
  check_risk Mock.both_down "zone-7" [] = check_risk Mock.biologist_down "zone-7" [] /\
  fst (check_risk Mock.both_down "zone-7" [])
  <> inl (upstream_error
            (transport Mock.both_down
               [ Post "http://biologist/get_sightings" (ZoneBody "zone-7") ]
               (VESSEL_AGENT_URL Mock.both_down) (ZoneBody "zone-7"))).
Proof.
  split; [exact I |]. split; [reflexivity |]. split; [reflexivity |].
  split; [reflexivity |].
  vm_compute. discriminate.
Qed.

(** C5, amended: when at least one of the two fetches fails (the agent
    cannot be reached, or answers outside 2xx), both POSTs have been made and
    answered before anything is decided, nothing is called afterwards, and
    the request fails with one error.  That error is the biologist agent's
    whenever its fetch failed, whatever became of the vessel fetch, and the
    vessel agent's when the biologist delivered and the vessel fetch failed:
    a failure on either side fails the request even if the other side
    succeeded, and of two failures only the biologist's is reported. *)
Theorem upstream_failure_surfaces env request_zone tr :
  let whale_call := Post (BIOLOGIST_AGENT_URL env) (ZoneBody request_zone) in
  let vessel_call := Post (VESSEL_AGENT_URL env) (ZoneBody request_zone) in
  let whale_outcome :=
    transport env tr (BIOLOGIST_AGENT_URL env) (ZoneBody request_zone) in
  let vessel_outcome :=
    transport env (whale_call :: tr) (VESSEL_AGENT_URL env) (ZoneBody request_zone) in
  BIOLOGIST_AGENT_URL env <> EmptyString ->
  VESSEL_AGENT_URL env <> EmptyString ->
  fetch_failed whale_outcome \/ fetch_failed vessel_outcome ->
  exists e,
    check_risk env request_zone tr = (inl e, vessel_call :: whale_call :: tr) /\
    (fetch_failed whale_outcome -> e = upstream_error whale_outcome) /\
    (forall doc, fetch_delivered whale_outcome doc ->
                 fetch_failed vessel_outcome -> e = upstream_error vessel_outcome).
Proof.
  intros whale_call vessel_call whale_outcome vessel_outcome Hbio Hves Hfail.
  destruct (get_data_from_agent env (BIOLOGIST_AGENT_URL env) request_zone tr)
    as [whale_result tr1] eqn:Hwhale.
  pose proof (fetch_log env _ request_zone tr Hbio) as Htr1.
  rewrite Hwhale in Htr1. simpl in Htr1. subst tr1.
  destruct (get_data_from_agent env (VESSEL_AGENT_URL env) request_zone (whale_call :: tr))
    as [vessel_result tr2] eqn:Hvessel.
  pose proof (fetch_log env _ request_zone (whale_call :: tr) Hves) as Htr2.
  fold whale_call in Hvessel.
  rewrite Hvessel in Htr2. simpl in Htr2. subst tr2.
  assert (Hraised : is_exception whale_result = true \/ is_exception vessel_result = true).
  { destruct Hfail as [Hf | Hf].
    - left. rewrite (network_failure_fails_fetch env _ _ _ Hbio Hf) in Hwhale.
      inversion Hwhale. reflexivity.
    - right. rewrite (network_failure_fails_fetch env _ _ _ Hves Hf) in Hvessel.
      inversion Hvessel. reflexivity. }
  destruct (fetch_failure_surfaces env request_zone tr _ _ _ _ Hwhale Hvessel Hraised)
    as (e & Hrun & Hwhich).
  exists e. split; [exact Hrun |]. split.
  - intros Hf.
    rewrite (network_failure_fails_fetch env _ _ _ Hbio Hf) in Hwhale.
    inversion Hwhale; subst whale_result.
    destruct Hwhich as [He | [Hno _]]; [| discriminate Hno].
    inversion He. reflexivity.
  - intros doc Hdelivered Hf.
    rewrite (delivery_returns env _ _ _ doc Hbio Hdelivered) in Hwhale.
    rewrite (network_failure_fails_fetch env _ _ _ Hves Hf) in Hvessel.
    inversion Hwhale; subst whale_result.
    inversion Hvessel; subst vessel_result.
    destruct Hwhich as [He | [_ He]]; [discriminate He |].
    inversion He. reflexivity.
Qed.

Lemma upstream_failure_surfaces_witness :
  check_risk Mock.biologist_down "zone-7" []
  = (inl (HTTPException 504 "Could not connect to downstream service"),
     [ Post "http://vessel/get_vessel_tracks" (ZoneBody "zone-7");
       Post "http://biologist/get_sightings" (ZoneBody "zone-7") ]).
Proof.
  destruct (upstream_failure_surfaces Mock.biologist_down "zone-7" []
              ltac:(discriminate) ltac:(discriminate) (or_introl I))
    as (e & Hrun & Hwhale & _).
  rewrite Hrun, (Hwhale I). reflexivity.
Defined.

(** X20: the log line printed once both payloads are in reads
    [whale_data['source']]: a biologist payload without that key ends the
    request with a [KeyError], before any analysis. *)
Lemma missing_source_fails_request env request_zone tr whale_doc tr1 vessel_doc tr2 :
  get_data_from_agent env (BIOLOGIST_AGENT_URL env) request_zone tr
  = (inr whale_doc, tr1) ->
  get_data_from_agent env (VESSEL_AGENT_URL env) request_zone tr1
  = (inr vessel_doc, tr2) ->
  source whale_doc = None ->
  check_risk env request_zone tr = (inl (KeyError "source"), tr2).
Proof.
  intros Hwhale Hvessel Hsource.
  erewrite check_risk_after_fetches by eauto.
  rewrite Hsource. reflexivity.
Qed.

(** C6 as stated fails.  Both agents answer, the LLM proxy is up, and the request still fails:
    one sighting carries a latitude of 95.52, geopy refuses it, and the
    analysis turns the refusal into a 500. *)
Lemma analysis_failure_fails_request :
  get_data_from_agent Mock.stray (BIOLOGIST_AGENT_URL Mock.stray) "zone-7" []
  = (inr Mock.stray_sightings,
     [ Post "http://biologist/get_sightings" (ZoneBody "zone-7") ]) /\
  get_data_from_agent Mock.stray (VESSEL_AGENT_URL Mock.stray) "zone-7"
    [ Post "http://biologist/get_sightings" (ZoneBody "zone-7") ]
  = (inr Mock.get_vessel_tracks,
     [ Post "http://vessel/get_vessel_tracks" (ZoneBody "zone-7");
       Post "http://biologist/get_sightings" (ZoneBody "zone-7") ]) /\
  ~ (exists report tr',
        check_risk Mock.stray "zone-7" [] = (inr report, tr')) /\
  fst (check_risk Mock.stray "zone-7" [])
  = inl (HTTPException 500
           "Data analysis with Pandas failed: Latitude must be in the [-90; 90] range.").
Proof.
  split; [reflexivity |]. split; [reflexivity |]. split.
  - intros (report & tr' & Hrun). vm_compute in Hrun. discriminate Hrun.
  - vm_compute. reflexivity.
Qed.

(** C6, amended: once both fetches have succeeded and the biologist's payload
    names its source, the request depends on the analysis alone.  If the
    analysis returns, the request completes with a report that carries the
    zone, the events found and the two payloads.  If the analysis raises, the
    request fails with that error, a 500. *)
Theorem check_risk_completes env request_zone tr whale_doc tr1 vessel_doc tr2 :
  get_data_from_agent env (BIOLOGIST_AGENT_URL env) request_zone tr
  = (inr whale_doc, tr1) ->
  get_data_from_agent env (VESSEL_AGENT_URL env) request_zone tr1
  = (inr vessel_doc, tr2) ->
  source whale_doc <> None ->
  match analyze_proximity_risk env whale_doc vessel_doc tr2 with
  | (inr evs, _) =>
      exists ai_summary tr',
        check_risk env request_zone tr
        = (inr (Build_RiskReport request_zone ai_summary
                  (Build_RiskData (List.length evs) evs)
                  (Build_RawData whale_doc vessel_doc)), tr')
  | (inl e, tr3) =>
      check_risk env request_zone tr = (inl e, tr3) /\
      exists detail, e = HTTPException 500 detail
  end.
Proof.
  intros Hwhale Hvessel Hsource.
  erewrite check_risk_after_fetches by eauto.
  destruct (source whale_doc) as [src |]; [| contradiction].
  rewrite (bind_inr (subscript (Some src) "source") _ tr2 src tr2 eq_refl).
  destruct (analyze_proximity_risk env whale_doc vessel_doc tr2)
    as [[e | evs] tr3] eqn:Hrun.
  - split.
    + apply bind_inl. exact Hrun.
    + destruct (analyze_raises_500 _ _ _ _ _ _ Hrun) as (cause & ->). eauto.
  - destruct (get_summary_and_action_returns env evs request_zone tr3)
      as (doc & tr' & Hsummary).
    exists doc, tr'.
    rewrite (bind_inr _ _ tr2 evs tr3 Hrun).
    rewrite (bind_inr _ _ tr3 doc tr' Hsummary). reflexivity.
Qed.

Lemma check_risk_completes_witness :
  exists ai_summary tr',
    check_risk Mock.healthy "zone-7" []
    = (inr (Build_RiskReport "zone-7" ai_summary
              (Build_RiskData 3 Mock.expected_events)
              (Build_RawData Mock.get_sightings Mock.get_vessel_tracks)), tr').
Proof.
  exact (check_risk_completes Mock.healthy "zone-7" []
           Mock.get_sightings
           [ Post "http://biologist/get_sightings" (ZoneBody "zone-7") ]
           Mock.get_vessel_tracks
           [ Post "http://vessel/get_vessel_tracks" (ZoneBody "zone-7");
             Post "http://biologist/get_sightings" (ZoneBody "zone-7") ]
           eq_refl eq_refl ltac:(discriminate)).
Defined.

(** C10: in a report that [check_risk] returns, [risk_events_found] is the
    length of [risk_events] and [zone] is the zone of the request. *)
Theorem report_count_and_zone env request_zone tr report tr' :
  check_risk env request_zone tr = (inr report, tr') ->
  risk_events_found (data report) = List.length (risk_events (data report)) /\
  zone report = request_zone.
Proof.
  intros Hrun.
  destruct (get_data_from_agent env (BIOLOGIST_AGENT_URL env) request_zone tr)
    as [whale_result tr1] eqn:Hwhale.
  destruct (get_data_from_agent env (VESSEL_AGENT_URL env) request_zone tr1)
    as [vessel_result tr2] eqn:Hvessel.
  destruct whale_result as [e | whale_doc].
  { erewrite check_risk_whale_error in Hrun by eauto. discriminate. }
  destruct vessel_result as [e | vessel_doc].
  { erewrite check_risk_vessel_error in Hrun by eauto. discriminate. }
  erewrite check_risk_after_fetches in Hrun by eauto.
  unfold bind in Hrun.
  destruct (subscript (source whale_doc) "source" tr2) as [[e | src] tr3];
    [discriminate |].
  destruct (analyze_proximity_risk env whale_doc vessel_doc tr3) as [[e | evs] tr4];
    [discriminate |].
  destruct (get_summary_and_action env evs request_zone tr4) as [[e | doc] tr5];
    [discriminate |].
  inversion Hrun; subst. simpl. split; reflexivity.
Qed.

Lemma report_count_and_zone_witness :
  exists report tr',
    check_risk Mock.healthy "zone-7" [] = (inr report, tr') /\
    risk_events_found (data report) = 3%nat /\
    risk_events_found (data report) = List.length (risk_events (data report)) /\
    zone report = "zone-7".
Proof.
  eexists _, _. split; [vm_compute; reflexivity |]. split; [reflexivity |].
  eapply (report_count_and_zone Mock.healthy "zone-7" []).
  vm_compute. reflexivity.
Defined.

(** ** Further properties of the analysis *)

Lemma merge_cross_as_pairs ss vs :
  merge_cross (whales_gdf_of ss) (vessels_gdf_of vs)
  = map row_of_pair (list_prod ss vs).
Proof.
  unfold merge_cross, whales_gdf_of, vessels_gdf_of.
  induction ss as [| s ss IH]; simpl.
  - reflexivity.
  - rewrite map_app, IH, !map_map. reflexivity.
Qed.

Lemma measured_row_of_pair env p d :
  measured env (row_of_pair p) d <->
  great_circle env (sighting_position (fst p)) (vessel_position (snd p)) = inr d.
Proof. unfold measured, row_of_pair. simpl. reflexivity. Qed.

Lemma row_call_of_pair p : row_call (row_of_pair p) = distance_call p.
Proof. reflexivity. Qed.

(** A traversal whose rows all get a distance returns the distances and logs
    one call per row, in the order of the rows. *)
Lemma apply_rows_run env rows ds :
  Forall2 (measured env) rows ds ->
  forall tr,
    apply_rows (calculate_distance env) rows tr
    = (inr ds, (rev (map row_call rows) ++ tr)%list).
Proof.
  induction 1 as [| r d rows ds Hd _ IH]; intros tr; simpl.
  - reflexivity.
  - unfold bind. unfold calculate_distance at 1.
    unfold measured in Hd. rewrite Hd.
    rewrite IH. unfold ret. rewrite <- app_assoc. reflexivity.
Qed.

(** A traversal stops at the first row geopy refuses. *)
Lemma apply_rows_abort env before ds r after cause :
  Forall2 (measured env) before ds ->
  great_circle env (y (geometry_whale r), x (geometry_whale r))
                   (y (geometry_vessel r), x (geometry_vessel r)) = inl cause ->
  forall tr,
    apply_rows (calculate_distance env) (before ++ r :: after)%list tr
    = (inl cause, (row_call r :: rev (map row_call before) ++ tr)%list).
Proof.
  induction 1 as [| r0 d rows ds Hd _ IH]; intros Hcause tr; simpl.
  - unfold bind. unfold calculate_distance at 1. rewrite Hcause. reflexivity.
  - unfold bind. unfold calculate_distance at 1.
    unfold measured in Hd. rewrite Hd.
    rewrite (IH Hcause). rewrite <- app_assoc. reflexivity.
Qed.

(** The analysis on rows that all get a distance. *)
Lemma analyze_run env whale_data vessel_data ds tr :
  let rows := merge_cross (whales_gdf_of (dict_get (sightings whale_data) []))
                          (vessels_gdf_of (dict_get (vessels vessel_data) [])) in
  Forall2 (measured env) rows ds ->
  analyze_proximity_risk env whale_data vessel_data tr
  = (inr (report_of rows ds), (rev (map row_call rows) ++ tr)%list).
Proof.
  intros rows Hds. subst rows. unfold analyze_proximity_risk.
  destruct (dict_get (sightings whale_data) []) as [| s ss].
  { simpl in *. inversion Hds; subst. reflexivity. }
  destruct (dict_get (vessels vessel_data) []) as [| v vs].
  { rewrite merge_cross_nil_right in *. inversion Hds; subst. reflexivity. }
  cbn [truthy negb orb].
  apply try_except_inr.
  erewrite bind_inr by (apply apply_rows_run; exact Hds).
  reflexivity.
Qed.

Lemma Forall2_measured_pairs env dist pairs :
  (forall p, In p pairs ->
             great_circle env (sighting_position (fst p)) (vessel_position (snd p))
             = inr (pair_distance dist p)) ->
  Forall2 (measured env) (map row_of_pair pairs) (map (pair_distance dist) pairs).
Proof.
  induction pairs as [| p pairs IH]; intros H; simpl; constructor.
  - apply measured_row_of_pair. apply H. left. reflexivity.
  - apply IH. intros q Hq. apply H. right. exact Hq.
Qed.

Lemma report_of_pairs dist pairs :
  report_of (map row_of_pair pairs) (map (pair_distance dist) pairs)
  = map (fun p => risk_event (fst p) (snd p) (pair_distance dist p))
        (filter (fun p => Qle_bool (pair_distance dist p) THRESHOLD_METERS) pairs).
Proof.
  unfold report_of. induction pairs as [| p pairs IH]; simpl.
  - reflexivity.
  - destruct (Qle_bool (pair_distance dist p) THRESHOLD_METERS); simpl;
      rewrite IH; reflexivity.
Qed.

(** X1: when geopy answers [dist] on every pair of the two payloads, the
    analysis returns exactly the comprehension over the cross product (pairs
    within 1852 m, in order, each with its rounded distance), and it has
    asked geopy once for each pair, in that order, and for nothing else. *)
Theorem analyze_as_comprehension env dist whale_data vessel_data ss vs tr :
  sightings whale_data = Some ss ->
  vessels vessel_data = Some vs ->
  (forall s v, In s ss -> In v vs ->
     great_circle env (sighting_position s) (vessel_position v)
     = inr (dist (sighting_position s) (vessel_position v))) ->
  analyze_proximity_risk env whale_data vessel_data tr
  = (inr (proximity_report dist ss vs),
     (rev (map distance_call (list_prod ss vs)) ++ tr)%list).
Proof.
  intros Hs Hv Hdist.
  assert (Hds : Forall2 (measured env) (map row_of_pair (list_prod ss vs))
                        (map (pair_distance dist) (list_prod ss vs))).
  { apply Forall2_measured_pairs. intros [s v] Hp.
    apply in_prod_iff in Hp. destruct Hp as [Hs' Hv']. simpl. auto. }
  pose proof (analyze_run env whale_data vessel_data
                (map (pair_distance dist) (list_prod ss vs)) tr) as Hrun.
  rewrite Hs, Hv in Hrun. unfold dict_get in Hrun. cbv zeta in Hrun.
  rewrite merge_cross_as_pairs in Hrun.
  rewrite (Hrun Hds). unfold proximity_report.
  rewrite report_of_pairs, map_map. reflexivity.
Qed.

Lemma analyze_as_comprehension_witness :
  analyze_proximity_risk Mock.healthy Mock.get_sightings Mock.get_vessel_tracks []
  = (inr Mock.expected_events,
     rev (map distance_call
            (list_prod (dict_get (sightings Mock.get_sightings) [])
                       (dict_get (vessels Mock.get_vessel_tracks) [])))).
Proof.
  rewrite (analyze_as_comprehension Mock.healthy
             (fun a b => Qabs (fst a - fst b) * (111195 # 1)
                         + Qabs (snd a - snd b) * (77940 # 1))%Q
             Mock.get_sightings Mock.get_vessel_tracks _ _ [] eq_refl eq_refl).
  - vm_compute. reflexivity.
  - intros s v Hs Hv. simpl in Hs, Hv.
    repeat match goal with
           | H : _ \/ _ |- _ => destruct H
           | H : False |- _ => destruct H
           end; subst; vm_compute; reflexivity.
Defined.

(** X2: the analysis stops at the first pair geopy refuses.  The pairs before
    it in the cross product have been measured, the refused pair is the last
    call made, no pair after it is looked at, and the refusal leaves the
    analysis as a 500 that quotes it. *)
Theorem analyze_stops_at_first_refusal
        env whale_data vessel_data ss vs before s v after cause tr :
  sightings whale_data = Some ss ->
  vessels vessel_data = Some vs ->
  list_prod ss vs = (before ++ (s, v) :: after)%list ->
  (forall p, In p before ->
     exists d, great_circle env (sighting_position (fst p))
                                (vessel_position (snd p)) = inr d) ->
  great_circle env (sighting_position s) (vessel_position v) = inl cause ->
  analyze_proximity_risk env whale_data vessel_data tr
  = (inl (HTTPException 500
            ("Data analysis with Pandas failed: " ++ str env cause)),
     (distance_call (s, v) :: rev (map distance_call before) ++ tr)%list).
Proof.
  intros Hs Hv Hsplit Hbefore Hcause.
  unfold analyze_proximity_risk. rewrite Hs, Hv. unfold dict_get.
  destruct ss as [| s0 ss'].
  { simpl in Hsplit. destruct before; discriminate Hsplit. }
  destruct vs as [| v0 vs'].
  { rewrite list_prod_as_flat_map in Hsplit.
    assert (Hnil : flat_map (fun a : Sighting.t => map (pair a) (@nil Vessel.t))
                            (s0 :: ss') = [])
      by (clear; induction (s0 :: ss'); simpl; auto).
    rewrite Hnil in Hsplit. destruct before; discriminate Hsplit. }
  cbn [truthy negb orb].
  rewrite merge_cross_as_pairs, Hsplit, map_app. simpl map.
  assert (Hds : exists ds, Forall2 (measured env) (map row_of_pair before) ds).
  { clear - Hbefore. induction before as [| p before IH].
    - exists []. constructor.
    - destruct IH as (ds & Hds); [intros q Hq; apply Hbefore; right; exact Hq |].
      destruct (Hbefore p (or_introl eq_refl)) as (d & Hd).
      exists (d :: ds). constructor; [| exact Hds].
      apply measured_row_of_pair. exact Hd. }
  destruct Hds as (ds & Hds).
  erewrite try_except_inl.
  2: { apply bind_inl. apply (apply_rows_abort env _ ds); [exact Hds |].
       exact Hcause. }
  unfold raise. rewrite map_map. reflexivity.
Qed.

Lemma analyze_stops_at_first_refusal_witness :
  analyze_proximity_risk Mock.stray Mock.stray_sightings Mock.get_vessel_tracks []
  = (inl (HTTPException 500
            "Data analysis with Pandas failed: Latitude must be in the [-90; 90] range."),
     [ GreatCircle (95.52, -123.99)%Q (45.53, -123.985)%Q ]).
Proof.
  apply (analyze_stops_at_first_refusal Mock.stray Mock.stray_sightings
           Mock.get_vessel_tracks _ _ []
           (Sighting.Build "human-1" "SRKW" 95.52 (-123.99))
           (Vessel.Build "vessel-A" "Ferry" 45.53 (-123.985))
           _ (LibraryError "Latitude must be in the [-90; 90] range.") []
           eq_refl eq_refl eq_refl).
  - intros p [].
  - reflexivity.
Defined.

Lemma round_half_even_close (q : Q) :
  (Qabs (inject_Z (round_half_even q) - q) <= 1 # 2)%Q.
Proof.
  pose proof (Qfloor_le q) as Hlow.
  pose proof (Qlt_floor q) as Hhigh.
  rewrite inject_Z_plus in Hhigh.
  change (inject_Z 1) with 1%Q in Hhigh.
  apply Qabs_Qle_condition.
  unfold round_half_even.
  destruct (Qcompare_spec (q - inject_Z (Qfloor q)) (1 # 2)) as [E | L | G].
  - destruct (Z.even (Qfloor q)).
    + split; lra.
    + rewrite inject_Z_plus. change (inject_Z 1) with 1%Q. split; lra.
  - split; lra.
  - rewrite inject_Z_plus. change (inject_Z 1) with 1%Q. split; lra.
Qed.

Lemma round_half_even_tie (q : Q) :
  (Qabs (inject_Z (round_half_even q) - q) == 1 # 2)%Q ->
  Z.even (round_half_even q) = true.
Proof.
  pose proof (Qfloor_le q) as Hlow.
  pose proof (Qlt_floor q) as Hhigh.
  rewrite inject_Z_plus in Hhigh.
  change (inject_Z 1) with 1%Q in Hhigh.
  unfold round_half_even.
  destruct (Qcompare_spec (q - inject_Z (Qfloor q)) (1 # 2)) as [E | L | G].
  - destruct (Z.even (Qfloor q)) eqn:Heven; intros _.
    + exact Heven.
    + change (Qfloor q + 1) with (Z.succ (Qfloor q)).
      rewrite Z.even_succ, <- Z.negb_even, Heven. reflexivity.
  - intros H. rewrite Qabs_neg in H by lra. exfalso. lra.
  - rewrite inject_Z_plus. change (inject_Z 1) with 1%Q.
    intros H. rewrite Qabs_pos in H by lra. exfalso. lra.
Qed.

Lemma report_of_sources rows ds e :
  In e (report_of rows ds) ->
  exists r d,
    In (r, d) (combine rows ds) /\
    Qle_bool d THRESHOLD_METERS = true /\
    e = to_record {| row := r; row_distance := d |}.
Proof.
  unfold report_of. intros He.
  apply in_map_iff in He. destruct He as (sr & <- & Hsr).
  apply filter_In in Hsr. destruct Hsr as [Hsr Hclose].
  apply in_map_iff in Hsr. destruct Hsr as ([r d] & <- & Hrd).
  exists r, d. auto.
Qed.

Lemma Forall2_combine_In {A B : Type} (R : A -> B -> Prop) l1 l2 a b :
  Forall2 R l1 l2 -> In (a, b) (combine l1 l2) -> R a b.
Proof.
  induction 1 as [| a0 b0 l1 l2 Hab _ IH]; simpl; intros Hin.
  - destruct Hin.
  - destruct Hin as [E | Hin]; [inversion E; subst; exact Hab | auto].
Qed.

(** X3: every event of a returned report comes from a sighting and a vessel
    of the payloads, carries their identifiers and the vessel's class, and
    its [distance_meters] is a whole number of metres within half a metre of
    what geopy measured for that pair, the even one when the measure lies
    exactly between two. *)
Theorem reported_distance_is_nearest_metre env whale_data vessel_data tr evs tr' :
  analyze_proximity_risk env whale_data vessel_data tr = (inr evs, tr') ->
  Forall (fun e =>
            exists s v d z,
              In s (dict_get (sightings whale_data) []) /\
              In v (dict_get (vessels vessel_data) []) /\
              great_circle env (sighting_position s) (vessel_position v) = inr d /\
              whale_sighting_id e = Sighting.id s /\
              vessel_id e = Vessel.id v /\
              vessel_class e = Vessel.class v /\
              distance_meters e = inject_Z z /\
              (Qabs (inject_Z z - d) <= 1 # 2)%Q /\
              ((Qabs (inject_Z z - d) == 1 # 2)%Q -> Z.even z = true))
         evs.
Proof.
  intros Hrun.
  apply analyze_returns_inv in Hrun. destruct Hrun as (ds & Hds & ->).
  cbv zeta in Hds. rewrite merge_cross_as_pairs in *.
  apply Forall_forall. intros e He.
  apply report_of_sources in He. destruct He as (r & d & Hin & _ & ->).
  pose proof (Forall2_combine_In _ _ _ _ _ Hds Hin) as Hd.
  apply in_combine_l in Hin.
  apply in_map_iff in Hin. destruct Hin as ([s v] & <- & Hp).
  apply in_prod_iff in Hp. destruct Hp as [Hs Hv].
  apply (proj1 (measured_row_of_pair _ _ _)) in Hd. simpl in Hd.
  exists s, v, d, (round_half_even d). repeat split; auto.
  - apply round_half_even_close.
  - apply round_half_even_tie.
Qed.

Lemma reported_distance_is_nearest_metre_witness :
  Forall (fun e =>
            exists s v d z,
              In s (dict_get (sightings Mock.get_sightings) []) /\
              In v (dict_get (vessels Mock.get_vessel_tracks) []) /\
              great_circle Mock.healthy (sighting_position s) (vessel_position v)
              = inr d /\
              whale_sighting_id e = Sighting.id s /\
              vessel_id e = Vessel.id v /\
              vessel_class e = Vessel.class v /\
              distance_meters e = inject_Z z /\
              (Qabs (inject_Z z - d) <= 1 # 2)%Q /\
              ((Qabs (inject_Z z - d) == 1 # 2)%Q -> Z.even z = true))
         Mock.expected_events.
Proof.
  apply (reported_distance_is_nearest_metre Mock.healthy Mock.get_sightings
           Mock.get_vessel_tracks [] Mock.expected_events
           (snd (analyze_proximity_risk Mock.healthy Mock.get_sightings
                   Mock.get_vessel_tracks []))).
  vm_compute. reflexivity.
Defined.

Lemma combine_app_same_length {A B : Type} (l1 l2 : list A) (m1 m2 : list B) :
  List.length l1 = List.length m1 ->
  combine (l1 ++ l2) (m1 ++ m2) = (combine l1 m1 ++ combine l2 m2)%list.
Proof.
  revert m1. induction l1 as [| a l1 IH]; intros [| b m1] Hlen;
    try discriminate Hlen; simpl.
  - reflexivity.
  - rewrite IH by (simpl in Hlen; congruence). reflexivity.
Qed.

Lemma report_of_app rows1 ds1 rows2 ds2 :
  List.length rows1 = List.length ds1 ->
  report_of (rows1 ++ rows2) (ds1 ++ ds2)
  = (report_of rows1 ds1 ++ report_of rows2 ds2)%list.
Proof.
  intros Hlen. unfold report_of.
  rewrite combine_app_same_length by exact Hlen.
  rewrite map_app, filter_app, map_app. reflexivity.
Qed.

Lemma merge_cross_app left1 left2 right :
  merge_cross (left1 ++ left2) right
  = (merge_cross left1 right ++ merge_cross left2 right)%list.
Proof. unfold merge_cross. apply flat_map_app. Qed.

(** X4: the analysis of two feeds of sightings put end to end is the report
    of the first followed by the report of the second, whenever the two
    analyses return: no pair is dropped, added or reordered by merging
    feeds. *)
Theorem analyze_concatenated_sightings
        env first_feed second_feed both_feeds vessel_data ss1 ss2
        tr1 evs1 tr1' tr2 evs2 tr2' tr :
  sightings first_feed = Some ss1 ->
  sightings second_feed = Some ss2 ->
  sightings both_feeds = Some (ss1 ++ ss2)%list ->
  analyze_proximity_risk env first_feed vessel_data tr1 = (inr evs1, tr1') ->
  analyze_proximity_risk env second_feed vessel_data tr2 = (inr evs2, tr2') ->
  fst (analyze_proximity_risk env both_feeds vessel_data tr)
  = inr (evs1 ++ evs2)%list.
Proof.
  intros H1 H2 H12 Hrun1 Hrun2.
  apply analyze_returns_inv in Hrun1. destruct Hrun1 as (ds1 & Hds1 & ->).
  apply analyze_returns_inv in Hrun2. destruct Hrun2 as (ds2 & Hds2 & ->).
  rewrite H1 in *. rewrite H2 in *. unfold dict_get in Hds1, Hds2 |- *.
  cbv zeta in Hds1, Hds2.
  pose proof (analyze_run env both_feeds vessel_data (ds1 ++ ds2) tr) as Hrun.
  rewrite H12 in Hrun. unfold dict_get at 1 in Hrun. cbv zeta in Hrun.
  unfold whales_gdf_of in Hrun at 1 2 3. rewrite map_app in Hrun.
  fold (whales_gdf_of ss1) in Hrun. fold (whales_gdf_of ss2) in Hrun.
  rewrite merge_cross_app in Hrun.
  rewrite Hrun by (apply Forall2_app; assumption).
  simpl. rewrite report_of_app by (eapply Forall2_length; eassumption).
  reflexivity.
Qed.

Lemma analyze_concatenated_sightings_witness :
  fst (analyze_proximity_risk Mock.healthy Mock.get_sightings
         Mock.get_vessel_tracks [])
  = inr (firstn 2 Mock.expected_events ++ skipn 2 Mock.expected_events)%list.
Proof.
  apply (analyze_concatenated_sightings Mock.healthy
           (Build_JsonDoc (Some "first")
              (Some [Sighting.Build "human-1" "SRKW" 45.52 (-123.99)])
              None None None None)
           (Build_JsonDoc (Some "second")
              (Some [Sighting.Build "human-2" "SRKW" 45.55 (-123.98)])
              None None None None)
           Mock.get_sightings Mock.get_vessel_tracks _ _
           [] _ (rev (map distance_call
                        (list_prod [Sighting.Build "human-1" "SRKW" 45.52 (-123.99)]
                                   (dict_get (vessels Mock.get_vessel_tracks) []))))
           [] _ (rev (map distance_call
                        (list_prod [Sighting.Build "human-2" "SRKW" 45.55 (-123.98)]
                                   (dict_get (vessels Mock.get_vessel_tracks) []))))
           [] eq_refl eq_refl eq_refl); vm_compute; reflexivity.
Defined.

(** ** Further properties of the fetches and of the summary *)

Lemma fetch_unconfigured env zone tr :
  get_data_from_agent env EmptyString zone tr
  = (inl (HTTPException 500 "Service URL for a dependency is not configured."), tr).
Proof. reflexivity. Qed.

(** X5: what can leave [get_data_from_agent] as an exception.  It is never
    the status error or the request error of the HTTP client: these two are
    converted.  With no URL it is a 500 and nothing was sent.  With a URL,
    after the one call to the client, it is the 504 of an unreachable agent,
    the 503 of an answer outside 2xx, the decoding error of a 2xx answer
    whose body is not JSON, or whatever else the client raised (the invalid
    URL error of a URL that cannot be parsed, say); the last two are passed
    on as they are. *)
Theorem fetch_exceptions env url zone tr e tr' :
  get_data_from_agent env url zone tr = (inl e, tr') ->
  ((forall response_text, e <> HTTPStatusError response_text) /\
   (forall reason, e <> RequestError reason)) /\
  ((url = EmptyString /\ tr' = tr /\
    e = HTTPException 500 "Service URL for a dependency is not configured.") \/
   (url <> EmptyString /\ tr' = Post url (ZoneBody zone) :: tr /\
    ((fetch_failed (transport env tr url (ZoneBody zone)) /\
      e = upstream_error (transport env tr url (ZoneBody zone))) \/
     (exists response reason,
         transport env tr url (ZoneBody zone) = Responded response /\
         is_success (status response) = true /\
         json response = None /\
         e = JSONDecodeError reason) \/
     (exists raised,
         transport env tr url (ZoneBody zone) = Raised raised /\
         e = as_caught_by_fetch raised)))).
Proof.
  unfold get_data_from_agent.
  destruct (String.eqb_spec url EmptyString) as [E | N].
  - intros H. inversion H; subst.
    split; [split; intros; discriminate |]. left. auto.
  - intros H.
    unfold try_except, bind, http_client_post in H.
    destruct (transport env tr url (ZoneBody zone))
      as [reason | response | raised]; simpl in *.
    + inversion H; subst. split; [split; intros; discriminate |].
      right. split; [exact N |]. split; [reflexivity |]. left. auto.
    + unfold raise_for_status, response_json in H.
      destruct (is_success (status response)) eqn:Hstatus; simpl in H.
      * destruct (json response) as [doc |] eqn:Hbody; simpl in H;
          [discriminate H |].
        inversion H; subst. split; [split; intros; discriminate |].
        right. split; [exact N |]. split; [reflexivity |].
        right. left. eauto 6.
      * inversion H; subst. split; [split; intros; discriminate |].
        right. split; [exact N |]. split; [reflexivity |]. left. auto.
    + assert (Hcaught : e = as_caught_by_fetch raised /\
                        tr' = Post url (ZoneBody zone) :: tr)
        by (destruct raised; inversion H; subst; split; reflexivity).
      destruct Hcaught as [-> ->].
      split; [split; intros; destruct raised; discriminate |].
      right. split; [exact N |]. split; [reflexivity |].
      right. right. exists raised. split; reflexivity.
Qed.

Lemma fetch_exceptions_witness :
  (forall reason, InvalidURL "Invalid port" <> RequestError reason) /\
  transport Mock.bad_biologist_url [] (BIOLOGIST_AGENT_URL Mock.bad_biologist_url)
    (ZoneBody "zone-7")
  = Raised (InvalidURL "Invalid port").
Proof.
  destruct (fetch_exceptions Mock.bad_biologist_url
              (BIOLOGIST_AGENT_URL Mock.bad_biologist_url) "zone-7" []
              (InvalidURL "Invalid port")
              [ Post "http://biologist:port/get_sightings" (ZoneBody "zone-7") ]
              eq_refl)
    as [[_ Hrequest] _].
  split; [exact Hrequest | reflexivity].
Defined.

Lemma fetch_undecodable env url zone tr response :
  url <> EmptyString ->
  transport env tr url (ZoneBody zone) = Responded response ->
  is_success (status response) = true ->
  json response = None ->
  get_data_from_agent env url zone tr
  = (inl (JSONDecodeError "Expecting value"), Post url (ZoneBody zone) :: tr).
Proof.
  intros Hurl Hout Hstatus Hbody. unfold get_data_from_agent.
  destruct (String.eqb_spec url EmptyString) as [E | _]; [contradiction |].
  unfold try_except, bind, http_client_post. rewrite Hout.
  unfold raise_for_status, response_json. rewrite Hstatus, Hbody. reflexivity.
Qed.

(** The summary step with events at hand: one POST, and its result. *)
Lemma summary_run env risk_events zone tr :
  risk_events <> [] ->
  get_summary_and_action env risk_events zone tr
  = (inr match transport env tr (LLM_PROXY_URL env) (PromptBody zone risk_events) with
         | Unreachable reason => failed_summary env (RequestError reason)
         | Responded response =>
             if is_success (status response) then
               match json response with
               | Some doc => doc
               | None => failed_summary env (JSONDecodeError "Expecting value")
               end
             else failed_summary env (HTTPStatusError (text response))
         | Raised e => failed_summary env e
         end,
     Post (LLM_PROXY_URL env) (PromptBody zone risk_events) :: tr).
Proof.
  intros Hne. unfold get_summary_and_action.
  destruct risk_events as [| ev rest]; [contradiction |]. simpl.
  unfold try_except, bind, http_client_post.
  destruct (transport env tr (LLM_PROXY_URL env) (PromptBody zone (ev :: rest)))
    as [reason | response | raised]; simpl.
  - reflexivity.
  - unfold raise_for_status, response_json.
    destruct (is_success (status response)); simpl; [| reflexivity].
    destruct (json response); reflexivity.
  - reflexivity.
Qed.

(** X6: with events at hand the summary step sends exactly one POST, to the
    LLM proxy, whose prompt carries the zone and these very events; it always
    returns.  When the call fails, what it returns is the fixed degraded
    summary, whose recommended action quotes the exception that was caught. *)
Theorem summary_call env risk_events zone tr :
  risk_events <> [] ->
  exists doc,
    get_summary_and_action env risk_events zone tr
    = (inr doc, Post (LLM_PROXY_URL env) (PromptBody zone risk_events) :: tr) /\
    (summarizer_failed
       (transport env tr (LLM_PROXY_URL env) (PromptBody zone risk_events)) ->
     summary doc = Some "AI summary generaton failed. See raw data." /\
     risk_level doc = Some "Unknown" /\
     recommended_action doc
     = Some ("Investigate AI model error: "
             ++ str env (summary_error
                           (transport env tr (LLM_PROXY_URL env)
                              (PromptBody zone risk_events))))).
Proof.
  intros Hne. eexists. split; [apply summary_run; exact Hne |].
  destruct (transport env tr (LLM_PROXY_URL env) (PromptBody zone risk_events))
    as [reason | response | raised]; simpl.
  - intros _. repeat split.
  - intros [Hstatus | Hbody].
    + rewrite Hstatus. repeat split.
    + destruct (is_success (status response)); [rewrite Hbody |]; repeat split.
  - intros _. repeat split.
Qed.

Lemma summary_call_witness :
  exists doc,
    get_summary_and_action Mock.llm_down Mock.expected_events "zone-7" []
    = (inr doc,
       [ Post "http://llm/generate_summary" (PromptBody "zone-7" Mock.expected_events) ]) /\
    recommended_action doc = Some "Investigate AI model error: timed out".
Proof.
  destruct (summary_call Mock.llm_down Mock.expected_events "zone-7" [])
    as (doc & Hrun & Hfailed); [discriminate |].
  exists doc. split; [exact Hrun |].
  destruct (Hfailed I) as (_ & _ & Haction). exact Haction.
Defined.

Lemma summary_passes_through_witness :
  get_summary_and_action
    (Mock.env_with (Mock.ok Mock.get_sightings) (Mock.ok Mock.get_vessel_tracks)
       (Mock.ok empty_doc))
    Mock.expected_events "zone-7" []
  = (inr empty_doc,
     [ Post "http://llm/generate_summary" (PromptBody "zone-7" Mock.expected_events) ]).
Proof.
  apply (summary_passes_through
           (Mock.env_with (Mock.ok Mock.get_sightings) (Mock.ok Mock.get_vessel_tracks)
              (Mock.ok empty_doc))
           Mock.expected_events "zone-7" []
           {| status := 200; text := "OK"; json := Some empty_doc |} empty_doc).
  - discriminate.
  - reflexivity.
  - reflexivity.
  - reflexivity.
Defined.

(** ** Further properties of the orchestration *)

(** X8: an unset biologist URL fails the request with the 500 of the missing
    configuration, yet the vessel agent is still asked: the decision is taken
    only after both tasks have ended. *)
Theorem unset_biologist_url env request_zone tr :
  BIOLOGIST_AGENT_URL env = EmptyString ->
  VESSEL_AGENT_URL env <> EmptyString ->
  check_risk env request_zone tr
  = (inl (HTTPException 500 "Service URL for a dependency is not configured."),
     Post (VESSEL_AGENT_URL env) (ZoneBody request_zone) :: tr).
Proof.
  intros Hbio Hves.
  destruct (get_data_from_agent env (VESSEL_AGENT_URL env) request_zone tr)
    as [vessel_result tr2] eqn:Hvessel.
  pose proof (fetch_log env _ request_zone tr Hves) as Hlog.
  rewrite Hvessel in Hlog. simpl in Hlog. subst tr2.
  eapply check_risk_whale_error.
  - rewrite Hbio. apply fetch_unconfigured.
  - exact Hvessel.
  - reflexivity.
Qed.

Lemma unset_biologist_url_witness :
  check_risk
    {| BIOLOGIST_AGENT_URL := EmptyString;
       VESSEL_AGENT_URL := "http://vessel/get_vessel_tracks";
       LLM_PROXY_URL := "http://llm/generate_summary";
       transport := transport Mock.healthy;
       great_circle := Mock.planar_distance;
       str := Mock.describe |}
    "zone-7" []
  = (inl (HTTPException 500 "Service URL for a dependency is not configured."),
     [ Post "http://vessel/get_vessel_tracks" (ZoneBody "zone-7") ]).
Proof.
  apply (unset_biologist_url
           {| BIOLOGIST_AGENT_URL := EmptyString;
              VESSEL_AGENT_URL := "http://vessel/get_vessel_tracks";
              LLM_PROXY_URL := "http://llm/generate_summary";
              transport := transport Mock.healthy;
              great_circle := Mock.planar_distance;
              str := Mock.describe |} "zone-7" []).
  - reflexivity.
  - discriminate.
Defined.

(** X9: when the biologist agent answers 2xx with a body that is not JSON,
    the request fails with the decoding error itself, not with a 503 or a
    504; both POSTs have been made and nothing else. *)
Theorem undecodable_agent_body env request_zone tr response :
  BIOLOGIST_AGENT_URL env <> EmptyString ->
  VESSEL_AGENT_URL env <> EmptyString ->
  transport env tr (BIOLOGIST_AGENT_URL env) (ZoneBody request_zone)
  = Responded response ->
  is_success (status response) = true ->
  json response = None ->
  exists reason,
    check_risk env request_zone tr
    = (inl (JSONDecodeError reason),
       Post (VESSEL_AGENT_URL env) (ZoneBody request_zone)
       :: Post (BIOLOGIST_AGENT_URL env) (ZoneBody request_zone) :: tr).
Proof.
  intros Hbio Hves Hout Hstatus Hbody.
  pose proof (fetch_undecodable env _ request_zone tr response
                Hbio Hout Hstatus Hbody) as Hwhale.
  destruct (get_data_from_agent env (VESSEL_AGENT_URL env) request_zone
              (Post (BIOLOGIST_AGENT_URL env) (ZoneBody request_zone) :: tr))
    as [vessel_result tr2] eqn:Hvessel.
  pose proof (fetch_log env _ request_zone
                (Post (BIOLOGIST_AGENT_URL env) (ZoneBody request_zone) :: tr) Hves)
    as Hlog.
  rewrite Hvessel in Hlog. simpl in Hlog. subst tr2.
  eexists. eapply check_risk_whale_error; eauto.
Qed.

Lemma undecodable_agent_body_witness :
  exists reason,
    check_risk
      (Mock.env_with
         (Responded {| status := 200; text := "<html>"; json := None |})
         (Mock.ok Mock.get_vessel_tracks) (Mock.ok Mock.a_summary))
      "zone-7" []
    = (inl (JSONDecodeError reason),
       [ Post "http://vessel/get_vessel_tracks" (ZoneBody "zone-7");
         Post "http://biologist/get_sightings" (ZoneBody "zone-7") ]).
Proof.
  apply (undecodable_agent_body
           (Mock.env_with
              (Responded {| status := 200; text := "<html>"; json := None |})
              (Mock.ok Mock.get_vessel_tracks) (Mock.ok Mock.a_summary))
           "zone-7" [] {| status := 200; text := "<html>"; json := None |}).
  - discriminate.
  - discriminate.
  - reflexivity.
  - reflexivity.
  - reflexivity.
Defined.

(** The request once both payloads are in and the analysis has returned. *)
Lemma check_risk_after_analysis
      env request_zone tr whale_doc tr1 vessel_doc tr2 evs tr3 src :
  get_data_from_agent env (BIOLOGIST_AGENT_URL env) request_zone tr
  = (inr whale_doc, tr1) ->
  get_data_from_agent env (VESSEL_AGENT_URL env) request_zone tr1
  = (inr vessel_doc, tr2) ->
  source whale_doc = Some src ->
  analyze_proximity_risk env whale_doc vessel_doc tr2 = (inr evs, tr3) ->
  check_risk env request_zone tr
  = bind (get_summary_and_action env evs request_zone)
         (fun ai_summary =>
            ret (Build_RiskReport request_zone ai_summary
                   (Build_RiskData (List.length evs) evs)
                   (Build_RawData whale_doc vessel_doc)))
         tr3.
Proof.
  intros Hwhale Hvessel Hsource Hrun.
  erewrite check_risk_after_fetches by eauto.
  rewrite Hsource.
  rewrite (bind_inr (subscript (Some src) "source") _ tr2 src tr2 eq_refl).
  rewrite (bind_inr _ _ tr2 evs tr3 Hrun). reflexivity.
Qed.

(** X10: a failing LLM proxy does not fail the request.  When both payloads
    are in, the analysis has found events and the call to the proxy fails,
    the request completes; its report carries these events, counts at least
    one, and has an ["Unknown"] risk level. *)
Theorem request_survives_summarizer_failure
        env request_zone tr whale_doc tr1 vessel_doc tr2 evs tr3 :
  get_data_from_agent env (BIOLOGIST_AGENT_URL env) request_zone tr
  = (inr whale_doc, tr1) ->
  get_data_from_agent env (VESSEL_AGENT_URL env) request_zone tr1
  = (inr vessel_doc, tr2) ->
  source whale_doc <> None ->
  analyze_proximity_risk env whale_doc vessel_doc tr2 = (inr evs, tr3) ->
  evs <> [] ->
  summarizer_failed
    (transport env tr3 (LLM_PROXY_URL env) (PromptBody request_zone evs)) ->
  exists report,
    check_risk env request_zone tr
    = (inr report, Post (LLM_PROXY_URL env) (PromptBody request_zone evs) :: tr3) /\
    risk_events (data report) = evs /\
    (1 <= risk_events_found (data report))%nat /\
    risk_level (ai_summary report) = Some "Unknown" /\
    raw_data report = Build_RawData whale_doc vessel_doc.
Proof.
  intros Hwhale Hvessel Hsource Hrun Hne Hfail.
  destruct (source whale_doc) as [src |] eqn:Hsrc; [| contradiction].
  erewrite check_risk_after_analysis by eauto.
  erewrite bind_inr by (apply summary_run; exact Hne).
  eexists. split; [reflexivity |]. simpl.
  split; [reflexivity |]. split.
  - destruct evs; [contradiction | simpl; lia].
  - split; [| reflexivity].
    destruct (transport env tr3 (LLM_PROXY_URL env) (PromptBody request_zone evs))
      as [reason | response | raised]; simpl in *.
    + reflexivity.
    + destruct Hfail as [Hstatus | Hbody].
      * rewrite Hstatus. reflexivity.
      * destruct (is_success (status response)); [rewrite Hbody |]; reflexivity.
    + reflexivity.
Qed.

Lemma request_survives_summarizer_failure_witness :
  exists report,
    check_risk Mock.llm_down "zone-7" []
    = (inr report,
       Post "http://llm/generate_summary" (PromptBody "zone-7" Mock.expected_events)
       :: snd (analyze_proximity_risk Mock.llm_down Mock.get_sightings
                 Mock.get_vessel_tracks
                 [ Post "http://vessel/get_vessel_tracks" (ZoneBody "zone-7");
                   Post "http://biologist/get_sightings" (ZoneBody "zone-7") ])) /\
    risk_events (data report) = Mock.expected_events /\
    (1 <= risk_events_found (data report))%nat /\
    risk_level (ai_summary report) = Some "Unknown" /\
    raw_data report = Build_RawData Mock.get_sightings Mock.get_vessel_tracks.
Proof.
  apply (request_survives_summarizer_failure Mock.llm_down "zone-7" []
           Mock.get_sightings
           [ Post "http://biologist/get_sightings" (ZoneBody "zone-7") ]
           Mock.get_vessel_tracks
           [ Post "http://vessel/get_vessel_tracks" (ZoneBody "zone-7");
             Post "http://biologist/get_sightings" (ZoneBody "zone-7") ]
           Mock.expected_events).
  - reflexivity.
  - reflexivity.
  - discriminate.
  - vm_compute. reflexivity.
  - discriminate.
  - exact I.
Defined.

(** X11: a request whose analysis finds nothing never calls the LLM proxy.
    It completes on the log left by the analysis, with no event, a count of
    zero and the fixed low-risk summary. *)
Theorem quiet_request env request_zone tr whale_doc tr1 vessel_doc tr2 tr3 :
  get_data_from_agent env (BIOLOGIST_AGENT_URL env) request_zone tr
  = (inr whale_doc, tr1) ->
  get_data_from_agent env (VESSEL_AGENT_URL env) request_zone tr1
  = (inr vessel_doc, tr2) ->
  source whale_doc <> None ->
  analyze_proximity_risk env whale_doc vessel_doc tr2 = (inr [], tr3) ->
  check_risk env request_zone tr
  = (inr (Build_RiskReport request_zone low_risk_summary
            (Build_RiskData 0 [])
            (Build_RawData whale_doc vessel_doc)), tr3).
Proof.
  intros Hwhale Hvessel Hsource Hrun.
  destruct (source whale_doc) as [src |] eqn:Hsrc; [| contradiction].
  erewrite check_risk_after_analysis by eauto. reflexivity.
Qed.

Lemma quiet_request_witness :
  check_risk
    (Mock.env_with (Mock.ok Mock.get_sightings)
       (Mock.ok (Build_JsonDoc (Some "Mocked AIS Feed") None (Some []) None None None))
       (Unreachable "timed out"))
    "zone-7" []
  = (inr (Build_RiskReport "zone-7" low_risk_summary (Build_RiskData 0 [])
            (Build_RawData Mock.get_sightings
               (Build_JsonDoc (Some "Mocked AIS Feed") None (Some []) None None None))),
     [ Post "http://vessel/get_vessel_tracks" (ZoneBody "zone-7");
       Post "http://biologist/get_sightings" (ZoneBody "zone-7") ]).
Proof.
  apply (quiet_request
           (Mock.env_with (Mock.ok Mock.get_sightings)
              (Mock.ok (Build_JsonDoc (Some "Mocked AIS Feed") None (Some [])
                          None None None))
              (Unreachable "timed out"))
           "zone-7" [] Mock.get_sightings
           [ Post "http://biologist/get_sightings" (ZoneBody "zone-7") ]
           (Build_JsonDoc (Some "Mocked AIS Feed") None (Some []) None None None)
           [ Post "http://vessel/get_vessel_tracks" (ZoneBody "zone-7");
             Post "http://biologist/get_sightings" (ZoneBody "zone-7") ]).
  - reflexivity.
  - reflexivity.
  - discriminate.
  - reflexivity.
Defined.

Lemma missing_source_fails_request_witness :
  check_risk
    (Mock.env_with
       (Mock.ok (Build_JsonDoc None (sightings Mock.get_sightings) None None None None))
       (Mock.ok Mock.get_vessel_tracks) (Mock.ok Mock.a_summary))
    "zone-7" []
  = (inl (KeyError "source"),
     [ Post "http://vessel/get_vessel_tracks" (ZoneBody "zone-7");
       Post "http://biologist/get_sightings" (ZoneBody "zone-7") ]).
Proof.
  apply (missing_source_fails_request
           (Mock.env_with
              (Mock.ok (Build_JsonDoc None (sightings Mock.get_sightings)
                          None None None None))
              (Mock.ok Mock.get_vessel_tracks) (Mock.ok Mock.a_summary))
           "zone-7" []
           (Build_JsonDoc None (sightings Mock.get_sightings) None None None None)
           [ Post "http://biologist/get_sightings" (ZoneBody "zone-7") ]
           Mock.get_vessel_tracks).
  - reflexivity.
  - reflexivity.
  - reflexivity.
Defined.

(** X12: a returned report is consistent with the raw payloads it carries.
    The biologist's payload names its source; the count is at most the number
    of sightings times the number of vessels of these payloads; every event
    is within 1852 m; and a report without events has the fixed low-risk
    summary. *)
Theorem report_is_consistent_with_raw_data env request_zone tr report tr' :
  check_risk env request_zone tr = (inr report, tr') ->
  source (whale_data (raw_data report)) <> None /\
  (risk_events_found (data report)
   <= List.length (dict_get (sightings (whale_data (raw_data report))) [])
      * List.length (dict_get (vessels (vessel_data (raw_data report))) []))%nat /\
  Forall (fun e => (distance_meters e <= 1852 # 1)%Q) (risk_events (data report)) /\
  (risk_events (data report) = [] -> ai_summary report = low_risk_summary).
Proof.
  intros Hrun.
  destruct (get_data_from_agent env (BIOLOGIST_AGENT_URL env) request_zone tr)
    as [whale_result tr1] eqn:Hwhale.
  destruct (get_data_from_agent env (VESSEL_AGENT_URL env) request_zone tr1)
    as [vessel_result tr2] eqn:Hvessel.
  destruct whale_result as [e | whale_doc].
  { erewrite check_risk_whale_error in Hrun by eauto. discriminate. }
  destruct vessel_result as [e | vessel_doc].
  { erewrite check_risk_vessel_error in Hrun by eauto. discriminate. }
  erewrite check_risk_after_fetches in Hrun by eauto.
  unfold bind in Hrun.
  destruct (source whale_doc) as [src |] eqn:Hsrc; simpl in Hrun;
    [| discriminate].
  destruct (analyze_proximity_risk env whale_doc vessel_doc tr2)
    as [[e | evs] tr3] eqn:Hanalysis; [discriminate |].
  destruct (get_summary_and_action env evs request_zone tr3)
    as [[e | doc] tr4] eqn:Hsummary; [discriminate |].
  inversion Hrun; subst. simpl.
  apply analyze_returns_inv in Hanalysis. destruct Hanalysis as (ds & _ & ->).
  split; [rewrite Hsrc; discriminate |]. split; [| split].
  - etransitivity; [apply report_of_length |].
    rewrite merge_cross_length.
    unfold whales_gdf_of, vessels_gdf_of. rewrite !length_map. reflexivity.
  - apply report_of_within_threshold.
  - intros Hnone. rewrite Hnone in Hsummary.
    inversion Hsummary. reflexivity.
Qed.

Lemma report_is_consistent_with_raw_data_witness :
  exists report,
    fst (check_risk Mock.healthy "zone-7" []) = inr report /\
    source (whale_data (raw_data report)) <> None /\
    (risk_events_found (data report) <= 2 * 4)%nat /\
    Forall (fun e => (distance_meters e <= 1852 # 1)%Q) (risk_events (data report)).
Proof.
  eexists. split; [vm_compute; reflexivity |].
  destruct (report_is_consistent_with_raw_data Mock.healthy "zone-7" [] _
              (snd (check_risk Mock.healthy "zone-7" []))
              ltac:(vm_compute; reflexivity))
    as (Hsource & Hcount & Hclose & _).
  auto.
Defined.

Local Open Scope list_scope.

Lemma posts_app (tr1 tr2 : Trace) :
  posts (tr1 ++ tr2)%list = (posts tr1 ++ posts tr2)%list.
Proof. unfold posts. apply flat_map_app. Qed.

Lemma apply_rows_log env rows :
  forall tr, exists calls,
    snd (apply_rows (calculate_distance env) rows tr) = (calls ++ tr)%list /\
    posts calls = [].
Proof.
  induction rows as [| r rows IH]; intros tr; simpl.
  - exists []. split; reflexivity.
  - unfold bind. unfold calculate_distance at 1.
    destruct (great_circle env _ _) as [e | d].
    + exists [row_call r]. split; reflexivity.
    + destruct (IH (row_call r :: tr)) as (calls & Hlog & Hposts).
      fold (row_call r).
      destruct (apply_rows (calculate_distance env) rows (row_call r :: tr))
        as [[e | ds] tr1]; simpl in Hlog; subst tr1;
        exists (calls ++ [row_call r])%list;
        (split; [simpl; rewrite <- app_assoc; reflexivity |]);
        rewrite posts_app, Hposts; reflexivity.
Qed.

(** The analysis only ever talks to geopy. *)
Lemma analyze_log env whale_data vessel_data tr :
  exists calls,
    snd (analyze_proximity_risk env whale_data vessel_data tr) = (calls ++ tr)%list /\
    posts calls = [].
Proof.
  unfold analyze_proximity_risk.
  destruct (negb (truthy (dict_get (sightings whale_data) []))
            || negb (truthy (dict_get (vessels vessel_data) []))).
  - exists []. split; reflexivity.
  - unfold try_except, bind.
    destruct (apply_rows_log env
                (merge_cross (whales_gdf_of (dict_get (sightings whale_data) []))
                             (vessels_gdf_of (dict_get (vessels vessel_data) []))) tr)
      as (calls & Hlog & Hposts).
    destruct (apply_rows _ _ tr) as [[e | ds] tr1]; simpl in Hlog; subst tr1;
      exists calls; split; auto.
Qed.

Lemma fetch_log_cases env url zone tr :
  exists sent,
    snd (get_data_from_agent env url zone tr) = (sent ++ tr)%list /\
    (sent = [] \/ sent = [Post url (ZoneBody zone)]).
Proof.
  destruct (String.eqb_spec url EmptyString) as [E | N].
  - subst url. exists []. split; [reflexivity | left; reflexivity].
  - exists [Post url (ZoneBody zone)]. split; [| right; reflexivity].
    apply fetch_log. exact N.
Qed.

Lemma summary_log_cases env evs zone tr :
  exists sent,
    snd (get_summary_and_action env evs zone tr) = (sent ++ tr)%list /\
    (sent = [] \/ sent = [Post (LLM_PROXY_URL env) (PromptBody zone evs)]).
Proof.
  destruct evs as [| ev rest].
  - exists []. split; [reflexivity | left; reflexivity].
  - exists [Post (LLM_PROXY_URL env) (PromptBody zone (ev :: rest))].
    split; [| right; reflexivity].
    rewrite summary_run by discriminate. reflexivity.
Qed.

(** X13: whatever happens, a request sends at most one POST to each
    collaborator and never repeats one: what it adds to the log holds at most
    the POST to the biologist agent, then at most the POST to the vessel
    agent, both carrying the zone, and last at most one POST to the LLM
    proxy carrying the zone. *)
Theorem request_call_budget env request_zone tr :
  exists calls to_biologist to_vessel to_llm,
    snd (check_risk env request_zone tr) = (calls ++ tr)%list /\
    posts calls = (to_llm ++ to_vessel ++ to_biologist)%list /\
    (to_biologist = [] \/
     to_biologist = [(BIOLOGIST_AGENT_URL env, ZoneBody request_zone)]) /\
    (to_vessel = [] \/
     to_vessel = [(VESSEL_AGENT_URL env, ZoneBody request_zone)]) /\
    (to_llm = [] \/
     exists evs, to_llm = [(LLM_PROXY_URL env, PromptBody request_zone evs)]).
Proof.
  destruct (fetch_log_cases env (BIOLOGIST_AGENT_URL env) request_zone tr)
    as (sent1 & Hlog1 & Hsent1).
  destruct (get_data_from_agent env (BIOLOGIST_AGENT_URL env) request_zone tr)
    as [whale_result tr1] eqn:Hwhale. simpl in Hlog1. subst tr1.
  destruct (fetch_log_cases env (VESSEL_AGENT_URL env) request_zone (sent1 ++ tr))
    as (sent2 & Hlog2 & Hsent2).
  destruct (get_data_from_agent env (VESSEL_AGENT_URL env) request_zone (sent1 ++ tr))
    as [vessel_result tr2] eqn:Hvessel. simpl in Hlog2. subst tr2.
  assert (Hbio : posts sent1 = [] \/
                 posts sent1 = [(BIOLOGIST_AGENT_URL env, ZoneBody request_zone)])
    by (destruct Hsent1 as [-> | ->]; auto).
  assert (Hves : posts sent2 = [] \/
                 posts sent2 = [(VESSEL_AGENT_URL env, ZoneBody request_zone)])
    by (destruct Hsent2 as [-> | ->]; auto).
  assert (Hfetched : forall e,
             check_risk env request_zone tr = (inl e, (sent2 ++ sent1 ++ tr)%list) ->
             exists calls to_biologist to_vessel to_llm,
               snd (check_risk env request_zone tr) = (calls ++ tr)%list /\
               posts calls = (to_llm ++ to_vessel ++ to_biologist)%list /\
               (to_biologist = [] \/
                to_biologist = [(BIOLOGIST_AGENT_URL env, ZoneBody request_zone)]) /\
               (to_vessel = [] \/
                to_vessel = [(VESSEL_AGENT_URL env, ZoneBody request_zone)]) /\
               (to_llm = [] \/
                exists evs, to_llm = [(LLM_PROXY_URL env, PromptBody request_zone evs)])).
  { intros e Hrun. exists (sent2 ++ sent1)%list, (posts sent1), (posts sent2), [].
    rewrite Hrun. simpl. rewrite <- app_assoc, posts_app. repeat split; auto. }
  destruct whale_result as [e | whale_doc].
  { apply (Hfetched e). eapply check_risk_whale_error; eauto. }
  destruct vessel_result as [e | vessel_doc].
  { apply (Hfetched e). eapply check_risk_vessel_error; eauto. }
  erewrite check_risk_after_fetches in * by eauto.
  destruct (source whale_doc) as [src |].
  2: { apply (Hfetched (KeyError "source")). reflexivity. }
  rewrite (bind_inr (subscript (Some src) "source") _ _ src _ eq_refl) in *.
  destruct (analyze_log env whale_doc vessel_doc (sent2 ++ sent1 ++ tr)%list)
    as (measured_calls & Hlog3 & Hnone).
  destruct (analyze_proximity_risk env whale_doc vessel_doc (sent2 ++ sent1 ++ tr)%list)
    as [[e | evs] tr3] eqn:Hanalysis; simpl in Hlog3; subst tr3.
  - exists (measured_calls ++ sent2 ++ sent1)%list, (posts sent1), (posts sent2), [].
    erewrite bind_inl by exact Hanalysis. simpl.
    rewrite <- !app_assoc, !posts_app, Hnone. repeat split; auto.
  - erewrite bind_inr by exact Hanalysis.
    destruct (summary_log_cases env evs request_zone
                (measured_calls ++ sent2 ++ sent1 ++ tr)%list)
      as (sent3 & Hlog4 & Hsent3).
    destruct (get_summary_and_action_returns env evs request_zone
                (measured_calls ++ sent2 ++ sent1 ++ tr)%list)
      as (doc & tr4 & Hsummary).
    rewrite Hsummary in Hlog4. simpl in Hlog4. subst tr4.
    erewrite bind_inr by exact Hsummary.
    exists (sent3 ++ measured_calls ++ sent2 ++ sent1)%list,
           (posts sent1), (posts sent2), (posts sent3).
    simpl. rewrite <- !app_assoc, !posts_app, Hnone. simpl.
    repeat split; auto.
    destruct Hsent3 as [-> | ->]; [left; reflexivity | right; eexists; reflexivity].
Qed.

(** ** The LLM proxy: cleaning the answer of the model *)

Module LlmProxyFacts.
Import LlmProxy.

Example fence_json_literal : fence_json = text_of "```json".
Proof. reflexivity. Qed.

Example clean_response_fenced :
  clean_response (text_of "  ```json {risk_level: High} ```  ")
  = text_of " {risk_level: High} ".
Proof. reflexivity. Qed.

Lemma lstrip_spaces ws t :
  Forall (fun c => isspace c = true) ws -> lstrip (ws ++ t) = lstrip t.
Proof.
  induction 1 as [| c ws Hc _ IH]; simpl.
  - reflexivity.
  - rewrite Hc. exact IH.
Qed.

Lemma lstrip_fixed c t : isspace c = false -> lstrip (c :: t) = c :: t.
Proof. intros H. simpl. rewrite H. reflexivity. Qed.

(** Stripping a text that begins and ends with a backtick, with white
    space around it. *)
Lemma strip_fenced ws1 ws2 middle :
  Forall (fun c => isspace c = true) ws1 ->
  Forall (fun c => isspace c = true) ws2 ->
  strip (ws1 ++ (backtick :: middle ++ [backtick]) ++ ws2)
  = backtick :: middle ++ [backtick].
Proof.
  intros H1 H2. unfold strip.
  set (fenced := backtick :: middle ++ [backtick]).
  rewrite lstrip_spaces by exact H1.
  assert (E1 : lstrip (fenced ++ ws2) = fenced ++ ws2) by reflexivity.
  rewrite E1, rev_app_distr.
  rewrite lstrip_spaces by (apply Forall_rev; exact H2).
  assert (E2 : rev fenced = backtick :: rev (backtick :: middle)).
  { subst fenced. change (backtick :: middle ++ [backtick])
      with ((backtick :: middle) ++ [backtick]).
    apply rev_unit. }
  rewrite E2, lstrip_fixed by reflexivity.
  rewrite <- E2. apply rev_involutive.
Qed.

(** Once an occurrence is found, its code points are passed over. *)
Lemma replace_from_skip old new passed rest :
  replace_from old new (passed ++ rest) (List.length passed)
  = replace_from old new rest 0.
Proof.
  induction passed as [| c passed IH]; simpl.
  - destruct rest; reflexivity.
  - exact IH.
Qed.

Lemma starts_with_itself old rest : starts_with old (old ++ rest) = true.
Proof.
  induction old as [| a old IH]; simpl.
  - reflexivity.
  - rewrite N.eqb_refl. exact IH.
Qed.

(** An occurrence at the head is replaced and the search goes on after it. *)
Lemma replace_from_found first old new rest :
  replace_from (first :: old) new ((first :: old) ++ rest) 0
  = new ++ replace_from (first :: old) new rest 0.
Proof.
  cbn [app replace_from].
  change (first :: old ++ rest) with ((first :: old) ++ rest).
  rewrite starts_with_itself.
  cbn [List.length]. rewrite Nat.sub_1_r. cbn [Nat.pred].
  rewrite replace_from_skip. reflexivity.
Qed.

(** Code points other than the first of [old] are copied. *)
Lemma replace_from_copy first old new body rest :
  Forall (fun c => c <> first) body ->
  replace_from (first :: old) new (body ++ rest) 0
  = body ++ replace_from (first :: old) new rest 0.
Proof.
  induction 1 as [| c body Hc _ IH]; simpl.
  - reflexivity.
  - destruct (N.eqb_spec first c) as [E | _]; [congruence |].
    simpl. rewrite IH. reflexivity.
Qed.

(** The white space around a fenced block goes with [strip]. *)
Lemma strip_fenced_block ws1 body ws2 :
  Forall (fun c => isspace c = true) ws1 ->
  Forall (fun c => isspace c = true) ws2 ->
  strip (ws1 ++ (fence_json ++ body ++ fence) ++ ws2) = fence_json ++ body ++ fence.
Proof.
  intros H1 H2.
  pose proof (strip_fenced ws1 ws2
                ([backtick; backtick; 106; 115; 111; 110]%N ++ body
                 ++ [backtick; backtick]) H1 H2) as H.
  unfold fence_json, fence in *. simpl in *.
  rewrite <- !app_assoc in *. simpl in *. exact H.
Qed.

(** The first replacement takes the opening fence of a block away. *)
Lemma replace_opening_fence body :
  Forall (fun c => c <> backtick) body ->
  replace fence_json [] (fence_json ++ body ++ fence) = body ++ fence.
Proof.
  intros Hbody. unfold replace.
  change fence_json with (backtick :: [backtick; backtick; 106; 115; 111; 110]%N).
  rewrite replace_from_found.
  rewrite replace_from_copy by exact Hbody. reflexivity.
Qed.

(** The second replacement takes the closing fence away. *)
Lemma replace_closing_fence body :
  Forall (fun c => c <> backtick) body ->
  replace fence [] (body ++ fence) = body.
Proof.
  intros Hbody. unfold replace.
  change fence with (backtick :: [backtick; backtick]).
  rewrite replace_from_copy by exact Hbody.
  assert (Hclose : replace_from (backtick :: [backtick; backtick]) []
                     (backtick :: [backtick; backtick]) 0 = [])
    by reflexivity.
  rewrite Hclose. apply app_nil_r.
Qed.

(** X14: a JSON block in a code fence is unwrapped.  For an answer made of
    white space, the opening fence of a JSON block, a body without backtick,
    the closing fence and white space, the text handed to [json.loads] is the
    body, with the white space it has inside the fences. *)
Theorem clean_response_unwraps_fence ws1 body ws2 :
  Forall (fun c => isspace c = true) ws1 ->
  Forall (fun c => isspace c = true) ws2 ->
  Forall (fun c => c <> backtick) body ->
  clean_response (ws1 ++ (fence_json ++ body ++ fence) ++ ws2) = body.
Proof.
  intros H1 H2 Hbody. unfold clean_response.
  rewrite strip_fenced_block by assumption.
  rewrite replace_opening_fence by exact Hbody.
  apply replace_closing_fence. exact Hbody.
Qed.

Lemma clean_response_unwraps_fence_witness :
  clean_response (text_of " " ++ (fence_json ++ text_of "{}" ++ fence) ++ text_of " ")
  = text_of "{}".
Proof.
  apply (clean_response_unwraps_fence (text_of " ") (text_of "{}") (text_of " ")).
  - repeat constructor.
  - repeat constructor.
  - repeat constructor; discriminate.
Defined.

Lemma lstrip_keeps (P : N -> Prop) t : Forall P t -> Forall P (lstrip t).
Proof.
  induction 1 as [| c t Hc Ht IH]; simpl.
  - constructor.
  - destruct (isspace c); [exact IH | constructor; assumption].
Qed.

Lemma strip_keeps (P : N -> Prop) t : Forall P t -> Forall P (strip t).
Proof.
  intros H. unfold strip.
  apply Forall_rev, lstrip_keeps, Forall_rev, lstrip_keeps. exact H.
Qed.

(** X15: an answer without any backtick reaches [json.loads] stripped of
    the white space around it and otherwise untouched. *)
Theorem clean_response_without_backtick text :
  Forall (fun c => c <> backtick) text ->
  clean_response text = strip text.
Proof.
  intros H. apply (strip_keeps _ _) in H.
  unfold clean_response, replace, fence_json, fence. simpl app.
  rewrite <- (app_nil_r (strip text)) at 1.
  rewrite replace_from_copy by exact H. simpl. rewrite app_nil_r.
  rewrite <- (app_nil_r (strip text)) at 1.
  rewrite replace_from_copy by exact H. simpl. apply app_nil_r.
Qed.

Lemma clean_response_without_backtick_witness :
  clean_response (text_of "  {} ") = text_of "{}".
Proof.
  rewrite (clean_response_without_backtick (text_of "  {} ")).
  - reflexivity.
  - repeat constructor; discriminate.
Defined.

Lemma starts_with_fence_other c t :
  c <> backtick -> starts_with fence (c :: t) = false.
Proof.
  intros H. unfold fence. cbn [starts_with].
  destruct (N.eqb_spec backtick c) as [E | _]; [congruence | reflexivity].
Qed.

Lemma contains_fence_other c t :
  c <> backtick -> contains_fence (c :: t) = contains_fence t.
Proof.
  intros H. cbn [contains_fence]. rewrite starts_with_fence_other by exact H.
  reflexivity.
Qed.

Lemma replace_fence_other c t :
  c <> backtick ->
  replace_from fence [] (c :: t) 0 = c :: replace_from fence [] t 0.
Proof.
  intros H. cbn [replace_from]. rewrite starts_with_fence_other by exact H.
  reflexivity.
Qed.

Lemma replace_fence_clears_upto (n : nat) :
  forall t, (List.length t <= n)%nat ->
            contains_fence (replace_from fence [] t 0) = false.
Proof.
  induction n as [| n IH]; intros t Hlen.
  - destruct t; [reflexivity | simpl in Hlen; lia].
  - destruct t as [| c1 t1]; [reflexivity |]. simpl in Hlen.
    destruct (N.eq_dec c1 backtick) as [-> | N1].
    2: { rewrite replace_fence_other, contains_fence_other by exact N1.
         apply IH. lia. }
    destruct t1 as [| c2 t2]; [reflexivity |]. simpl in Hlen.
    destruct (N.eq_dec c2 backtick) as [-> | N2].
    2: { assert (E : replace_from fence [] (backtick :: c2 :: t2) 0
                     = backtick :: c2 :: replace_from fence [] t2 0).
         { cbn [replace_from starts_with fence].
           destruct (N.eqb_spec backtick c2) as [E | _]; [congruence |].
           rewrite N.eqb_refl. cbn [andb]. reflexivity. }
         rewrite E. cbn [contains_fence starts_with fence].
         destruct (N.eqb_spec backtick c2) as [E' | _]; [congruence |].
         rewrite N.eqb_refl. cbn [andb orb]. apply IH. lia. }
    destruct t2 as [| c3 t3]; [reflexivity |]. simpl in Hlen.
    destruct (N.eq_dec c3 backtick) as [-> | N3].
    + assert (E : replace_from fence [] (backtick :: backtick :: backtick :: t3) 0
                  = replace_from fence [] t3 0).
      { change (backtick :: backtick :: backtick :: t3)
          with ((backtick :: [backtick; backtick]) ++ t3).
        change fence with (backtick :: [backtick; backtick]).
        rewrite replace_from_found. reflexivity. }
      rewrite E. apply IH. lia.
    + assert (E : replace_from fence [] (backtick :: backtick :: c3 :: t3) 0
                  = backtick :: backtick :: c3 :: replace_from fence [] t3 0).
      { cbn [replace_from starts_with fence].
        destruct (N.eqb_spec backtick c3) as [E | _]; [congruence |].
        rewrite !N.eqb_refl. cbn [andb]. reflexivity. }
      rewrite E. cbn [contains_fence starts_with fence].
      destruct (N.eqb_spec backtick c3) as [E' | _]; [congruence |].
      rewrite !N.eqb_refl. cbn [andb orb]. apply IH. lia.
Qed.

(** X16: whatever the model answers, the text handed to [json.loads] holds
    no code fence: nowhere in it do three backticks follow one another. *)
Theorem clean_response_has_no_fence text :
  contains_fence (clean_response text) = false.
Proof.
  unfold clean_response, replace.
  apply (replace_fence_clears_upto
           (List.length (replace_from fence_json [] (strip text) 0))).
  apply Nat.le_refl.
Qed.

End LlmProxyFacts.

(** ** The four services together *)

(** What a returned report is made of. *)
Lemma check_risk_returns_inv env request_zone tr report tr' :
  check_risk env request_zone tr = (inr report, tr') ->
  exists tr1 tr2 tr3 src,
    get_data_from_agent env (BIOLOGIST_AGENT_URL env) request_zone tr
    = (inr (whale_data (raw_data report)), tr1) /\
    get_data_from_agent env (VESSEL_AGENT_URL env) request_zone tr1
    = (inr (vessel_data (raw_data report)), tr2) /\
    source (whale_data (raw_data report)) = Some src /\
    analyze_proximity_risk env (whale_data (raw_data report))
      (vessel_data (raw_data report)) tr2
    = (inr (risk_events (data report)), tr3) /\
    get_summary_and_action env (risk_events (data report)) request_zone tr3
    = (inr (ai_summary report), tr').
Proof.
  intros Hrun.
  destruct (get_data_from_agent env (BIOLOGIST_AGENT_URL env) request_zone tr)
    as [whale_result tr1] eqn:Hwhale.
  destruct (get_data_from_agent env (VESSEL_AGENT_URL env) request_zone tr1)
    as [vessel_result tr2] eqn:Hvessel.
  destruct whale_result as [e | whale_doc].
  { erewrite check_risk_whale_error in Hrun by eauto. discriminate. }
  destruct vessel_result as [e | vessel_doc].
  { erewrite check_risk_vessel_error in Hrun by eauto. discriminate. }
  erewrite check_risk_after_fetches in Hrun by eauto.
  unfold bind in Hrun.
  destruct (source whale_doc) as [src |] eqn:Hsrc; simpl in Hrun;
    [| discriminate].
  destruct (analyze_proximity_risk env whale_doc vessel_doc tr2)
    as [[e | evs] tr3] eqn:Hanalysis; [discriminate |].
  destruct (get_summary_and_action env evs request_zone tr3)
    as [[e | doc] tr4] eqn:Hsummary; [discriminate |].
  inversion Hrun; subst. simpl.
  exists tr1, tr2, tr3, src. auto.
Qed.

Lemma measured_all env rows :
  Forall (fun r => exists d, measured env r d) rows ->
  exists ds, Forall2 (measured env) rows ds.
Proof.
  induction 1 as [| r rows (d & Hd) _ (ds & Hds)].
  - exists []. constructor.
  - exists (d :: ds). constructor; assumption.
Qed.

Section Deployed.

Variable d : Mesh.Deployment.
Variable request_zone : string.

Let whale_doc : JsonDoc :=
  BiologistAgent.to_json
    (BiologistAgent.get_sightings (Mesh.DATA_SOURCE_VERSION d) (Mesh.duration d)
       request_zone).

Let vessel_doc : JsonDoc :=
  VesselAgent.to_json (VesselAgent.get_vessel_tracks (ZoneBody request_zone)).

Lemma mesh_whale_fetch tr :
  get_data_from_agent (Mesh.regulator d) Mesh.biologist_url request_zone tr
  = (inr whale_doc, Post Mesh.biologist_url (ZoneBody request_zone) :: tr).
Proof. reflexivity. Qed.

Lemma mesh_vessel_fetch tr :
  get_data_from_agent (Mesh.regulator d) Mesh.vessel_url request_zone tr
  = (inr vessel_doc, Post Mesh.vessel_url (ZoneBody request_zone) :: tr).
Proof. reflexivity. Qed.

Lemma mesh_llm_call tr evs :
  transport (Mesh.regulator d) tr Mesh.llm_url (PromptBody request_zone evs)
  = Mesh.llm_service d (PromptBody request_zone evs).
Proof. reflexivity. Qed.

Lemma mesh_pairs :
  (List.length (dict_get (sightings whale_doc) [])
   * List.length (dict_get (vessels vessel_doc) []) <= 12)%nat.
Proof.
  unfold whale_doc, vessel_doc, BiologistAgent.get_sightings.
  destruct (String.eqb (Mesh.DATA_SOURCE_VERSION d) "v1"); simpl; lia.
Qed.

End Deployed.

(** X17: with the regulator, the two agents and the proxy of this repository
    wired on their default ports, a request completes whenever geopy answers:
    no agent failure, missing key or failure of the proxy can fail it.  The
    report carries the zone of the request and the payloads of the two
    agents, and counts at most twelve events. *)
Theorem mesh_request_completes d request_zone tr :
  (forall s v,
      In s (BiologistAgent.sightings
              (BiologistAgent.get_sightings (Mesh.DATA_SOURCE_VERSION d)
                 (Mesh.duration d) request_zone)) ->
      In v (VesselAgent.vessels
              (VesselAgent.get_vessel_tracks (ZoneBody request_zone))) ->
      exists meters,
        Mesh.geopy d (sighting_position s) (vessel_position v) = inr meters) ->
  exists report tr',
    check_risk (Mesh.regulator d) request_zone tr = (inr report, tr') /\
    zone report = request_zone /\
    whale_data (raw_data report)
    = BiologistAgent.to_json
        (BiologistAgent.get_sightings (Mesh.DATA_SOURCE_VERSION d) (Mesh.duration d)
           request_zone) /\
    vessel_data (raw_data report)
    = VesselAgent.to_json (VesselAgent.get_vessel_tracks (ZoneBody request_zone)) /\
    (risk_events_found (data report) <= 12)%nat.
Proof.
  intros Hgeopy.
  set (whale_doc := BiologistAgent.to_json
                      (BiologistAgent.get_sightings (Mesh.DATA_SOURCE_VERSION d)
                         (Mesh.duration d) request_zone)).
  set (vessel_doc := VesselAgent.to_json
                       (VesselAgent.get_vessel_tracks (ZoneBody request_zone))).
  set (tr2 := Post Mesh.vessel_url (ZoneBody request_zone)
              :: Post Mesh.biologist_url (ZoneBody request_zone) :: tr).
  set (rows := merge_cross (whales_gdf_of (dict_get (sightings whale_doc) []))
                           (vessels_gdf_of (dict_get (vessels vessel_doc) []))).
  destruct (measured_all (Mesh.regulator d) rows) as (ds & Hds).
  { apply Forall_forall. intros r Hr. subst rows.
    rewrite merge_cross_as_pairs in Hr.
    apply in_map_iff in Hr. destruct Hr as ([s v] & <- & Hp).
    apply in_prod_iff in Hp. destruct Hp as [Hs Hv].
    destruct (Hgeopy s v Hs Hv) as (meters & Hmeters).
    exists meters. apply measured_row_of_pair. exact Hmeters. }
  pose proof (analyze_run (Mesh.regulator d) whale_doc vessel_doc ds tr2 Hds)
    as Hanalysis.
  destruct (get_summary_and_action_returns (Mesh.regulator d)
              (report_of rows ds) request_zone (rev (map row_call rows) ++ tr2))
    as (doc & tr' & Hsummary).
  assert (Hsource : exists src, source whale_doc = Some src)
    by (eexists; reflexivity).
  destruct Hsource as (src & Hsource).
  eexists _, tr'. split.
  - rewrite (check_risk_after_analysis (Mesh.regulator d) request_zone tr
               whale_doc _ vessel_doc tr2 _ _ src
               (mesh_whale_fetch d request_zone tr)
               (mesh_vessel_fetch d request_zone _) Hsource Hanalysis).
    erewrite bind_inr by exact Hsummary. reflexivity.
  - simpl. repeat split.
    etransitivity; [apply report_of_length |].
    subst rows. rewrite merge_cross_length.
    unfold whales_gdf_of, vessels_gdf_of. rewrite !length_map.
    apply mesh_pairs.
Qed.

Lemma mesh_request_completes_witness :
  exists report tr',
    check_risk (Mesh.regulator (Mesh.sample (Some "key") (inr Mesh.fenced_answer)))
      "zone-7" []
    = (inr report, tr') /\
    zone report = "zone-7" /\
    whale_data (raw_data report) = Mock.get_sightings /\
    vessel_data (raw_data report) = Mock.get_vessel_tracks /\
    (risk_events_found (data report) <= 12)%nat.
Proof.
  apply (mesh_request_completes
           (Mesh.sample (Some "key") (inr Mesh.fenced_answer)) "zone-7" []).
  intros s v Hs Hv. simpl in Hs, Hv.
  repeat match goal with
         | H : _ \/ _ |- _ => destruct H
         | H : False |- _ => destruct H
         end; subst; eexists; vm_compute; reflexivity.
Defined.

(** The summary of a report with events, in terms of the answer of the
    proxy. *)
Lemma mesh_summary d request_zone tr report tr' :
  check_risk (Mesh.regulator d) request_zone tr = (inr report, tr') ->
  risk_events (data report) <> [] ->
  ai_summary report
  = match Mesh.llm_service d (PromptBody request_zone (risk_events (data report))) with
    | Unreachable reason => failed_summary (Mesh.regulator d) (RequestError reason)
    | Responded response =>
        if is_success (status response) then
          match json response with
          | Some doc => doc
          | None =>
              failed_summary (Mesh.regulator d) (JSONDecodeError "Expecting value")
          end
        else failed_summary (Mesh.regulator d) (HTTPStatusError (text response))
    | Raised e => failed_summary (Mesh.regulator d) e
    end.
Proof.
  intros Hrun Hevents.
  apply check_risk_returns_inv in Hrun.
  destruct Hrun as (tr1 & tr2 & tr3 & src & _ & _ & _ & _ & Hsummary).
  rewrite summary_run in Hsummary by exact Hevents.
  inversion Hsummary as [[Hdoc Htr]]. reflexivity.
Qed.

(** X18: in the same wiring, a proxy that is not running (no API key) or
    whose handler raises (the model raises, or its cleaned answer is not
    JSON) never fails a request that found events: the report is returned
    with the degraded summary and an ["Unknown"] risk level. *)
Theorem mesh_proxy_failure_degrades d request_zone tr report tr' :
  check_risk (Mesh.regulator d) request_zone tr = (inr report, tr') ->
  risk_events (data report) <> [] ->
  Mesh.proxy_fails d (request_zone, risk_events (data report)) ->
  risk_level (ai_summary report) = Some "Unknown" /\
  summary (ai_summary report) = Some "AI summary generaton failed. See raw data.".
Proof.
  intros Hrun Hevents Hfails.
  rewrite (mesh_summary d request_zone tr report tr' Hrun Hevents).
  unfold Mesh.llm_service.
  destruct Hfails as [Hkey | [Hkey | (e & Hraise)]].
  - rewrite Hkey. split; reflexivity.
  - rewrite Hkey. split; reflexivity.
  - destruct (LlmProxy.get_gemini_api_key (Mesh.GOOGLE_API_KEY d));
      [split; reflexivity |].
    rewrite Hraise.
    unfold LlmProxy.generate_summary in Hraise.
    destruct (match LlmProxy.generate_content (Mesh.llm d)
                      (request_zone, risk_events (data report)) with
              | inl e0 => inl e0
              | inr text => LlmProxy.json_loads (Mesh.llm d)
                              (LlmProxy.clean_response text)
              end) as [cause | doc]; [| discriminate Hraise].
    inversion Hraise; subst e. split; reflexivity.
Qed.

Lemma mesh_proxy_failure_degrades_witness :
  exists report,
    fst (check_risk (Mesh.regulator (Mesh.sample None (inr Mesh.fenced_answer)))
           "zone-7" [])
    = inr report /\
    risk_events (data report) = Mock.expected_events /\
    risk_level (ai_summary report) = Some "Unknown".
Proof.
  eexists. split; [vm_compute; reflexivity |]. split; [reflexivity |].
  apply (mesh_proxy_failure_degrades
           (Mesh.sample None (inr Mesh.fenced_answer)) "zone-7" [] _
           (snd (check_risk (Mesh.regulator (Mesh.sample None (inr Mesh.fenced_answer)))
                   "zone-7" []))).
  - vm_compute. reflexivity.
  - discriminate.
  - left. reflexivity.
Defined.

(** X19: in the same wiring, when the model answers a request that found
    events with a JSON block in a code fence, the summary of the report is
    what [json.loads] makes of the body of that block. *)
Theorem mesh_fenced_answer_is_the_summary
        d request_zone tr report tr' key ws1 body ws2 doc :
  check_risk (Mesh.regulator d) request_zone tr = (inr report, tr') ->
  risk_events (data report) <> [] ->
  Mesh.GOOGLE_API_KEY d = Some key ->
  key <> EmptyString ->
  LlmProxy.generate_content (Mesh.llm d) (request_zone, risk_events (data report))
  = inr (ws1 ++ (LlmProxy.fence_json ++ body ++ LlmProxy.fence) ++ ws2) ->
  Forall (fun c => LlmProxy.isspace c = true) ws1 ->
  Forall (fun c => LlmProxy.isspace c = true) ws2 ->
  Forall (fun c => c <> LlmProxy.backtick) body ->
  LlmProxy.json_loads (Mesh.llm d) body = inr doc ->
  ai_summary report = doc.
Proof.
  intros Hrun Hevents Hkey Hne Hanswer Hws1 Hws2 Hbody Hloads.
  rewrite (mesh_summary d request_zone tr report tr' Hrun Hevents).
  unfold Mesh.llm_service, LlmProxy.get_gemini_api_key. rewrite Hkey.
  destruct (String.eqb_spec key EmptyString) as [E | _]; [contradiction |].
  unfold LlmProxy.generate_summary. rewrite Hanswer.
  unfold LlmProxy.clean_response.
  rewrite LlmProxyFacts.strip_fenced_block by assumption.
  rewrite LlmProxyFacts.replace_opening_fence by assumption.
  rewrite LlmProxyFacts.replace_closing_fence by assumption.
  rewrite Hloads. reflexivity.
Qed.

Lemma mesh_fenced_answer_is_the_summary_witness :
  exists report,
    fst (check_risk (Mesh.regulator (Mesh.sample (Some "key") (inr Mesh.fenced_answer)))
           "zone-7" [])
    = inr report /\
    ai_summary report = Mock.a_summary.
Proof.
  eexists. split; [vm_compute; reflexivity |].
  apply (mesh_fenced_answer_is_the_summary
           (Mesh.sample (Some "key") (inr Mesh.fenced_answer)) "zone-7" [] _
           (snd (check_risk
                   (Mesh.regulator (Mesh.sample (Some "key") (inr Mesh.fenced_answer)))
                   "zone-7" []))
           "key" (LlmProxy.text_of " ") Mesh.answer_body (LlmProxy.text_of " ")).
  - vm_compute. reflexivity.
  - discriminate.
  - reflexivity.
  - discriminate.
  - reflexivity.
  - repeat constructor.
  - repeat constructor.
  - unfold Mesh.answer_body. vm_compute.
    repeat (constructor; [discriminate |]). constructor.
  - reflexivity.
Defined.
